(** * A shallow embedding of [src/server.js]

    The file [src/server.js] holds three revisions of one Express server
    that searches for videos and streams their audio track out of an
    external extraction tool:

    - the _retrying_ revision (lines 1-434), whose download goes through
      [tryDownloadWithFallbacks];
    - the _simple_ revision (lines 435-710), one subprocess per request,
      no rate limit;
    - the _rate-limited simple_ revision (lines 711-1081).

    Every handler of the server is a callback run to completion by a
    single-threaded event loop, so each is embedded as a function from the
    state it can touch to the state it leaves.  What the runtime supplies
    (the clock, the random index, the search provider, number formatting)
    is an argument of the function that uses it. *)

From Stdlib Require Import ZArith QArith String Ascii List Bool Lia DecimalString.
From Stdlib Require Import Qround.
From stdpp Require Import gmap strings list.

Local Open Scope Z_scope.
Local Set Warnings "-register-all".

(** ** The JavaScript runtime, as far as the server uses it *)

Module JS.

(** A JavaScript string is embedded as a [string]: the sequence of its
    code units, for texts whose code units are all below 256. *)

(** [s] with the prefix [p] removed, when it starts with [p]. *)
Fixpoint strip_prefix (p s : string) : option string :=
  match p, s with
  | EmptyString, _ => Some s
  | String a p', String b s' =>
      if Ascii.eqb a b then strip_prefix p' s' else None
  | String _ _, EmptyString => None
  end.

(** [s.startsWith(p)] *)
Definition starts_with (p s : string) : bool :=
  match strip_prefix p s with Some _ => true | None => false end.

(** [hay.includes(needle)] *)
Fixpoint includes (hay needle : string) : bool :=
  starts_with needle hay ||
  match hay with
  | EmptyString => false
  | String _ rest => includes rest needle
  end.

(** Truthiness of a value that is [undefined] or a string. *)
Definition truthy (v : option string) : bool :=
  match v with
  | None => false
  | Some s => negb (String.eqb s EmptyString)
  end.

(** [a || b] on such values. *)
Definition or_else (a b : option string) : option string :=
  if truthy a then a else b.

(** The character classes [\s] and [\d] of a regular expression without
    the [u] flag, on code units below 256: tab, line feed, vertical tab,
    form feed, carriage return, space and no-break space; the ten ASCII
    digits. *)
Definition is_space (c : ascii) : bool :=
  let n := nat_of_ascii c in
  ((9 <=? n) && (n <=? 13) || (n =? 32) || (n =? 160))%nat.

Definition is_digit (c : ascii) : bool :=
  let n := nat_of_ascii c in ((48 <=? n) && (n <=? 57))%nat.

Fixpoint take_while (p : ascii -> bool) (s : string) : string :=
  match s with
  | EmptyString => EmptyString
  | String c rest => if p c then String c (take_while p rest) else EmptyString
  end.

Fixpoint drop_while (p : ascii -> bool) (s : string) : string :=
  match s with
  | EmptyString => EmptyString
  | String c rest => if p c then drop_while p rest else s
  end.

(** Every code unit of [s] is in the class [p]. *)
Fixpoint all_chars (p : ascii -> bool) (s : string) : bool :=
  match s with
  | EmptyString => true
  | String c rest => p c && all_chars p rest
  end.

(** A greedy run [p+] at the start of [s]: the run, which is not empty,
    and what follows it. *)
Definition run (p : ascii -> bool) (s : string) : option (string * string) :=
  match take_while p s with
  | EmptyString => None
  | String _ _ as r => Some (r, drop_while p s)
  end.

(** The pattern [/\[download\]\s+(\d+\.\d+)%/] tried at the start of [s]:
    the text of its capture group when it matches there.  The classes
    [\s], [\d] and the literals [.] and [%] are pairwise disjoint, so each
    greedy run is the only split that can succeed and no backtracking
    changes the outcome. *)
Definition progress_match_here (s : string) : option string :=
  r0 ← strip_prefix "[download]" s;
  '(_, r1) ← run is_space r0;
  '(int_part, r2) ← run is_digit r1;
  r3 ← strip_prefix "." r2;
  '(frac_part, r4) ← run is_digit r3;
  _ ← strip_prefix "%" r4;
  Some (int_part +:+ "." +:+ frac_part).

(** What the pattern asks of a text it matches from its start, read off
    the pattern piece by piece, [captured] being group 1. *)
Definition pattern_matches_at (s captured : string) : Prop :=
  exists ws int_part frac_part rest,
    s = "[download]" +:+ ws +:+ int_part +:+ "." +:+ frac_part +:+ "%" +:+ rest /\
    ws <> EmptyString /\ all_chars is_space ws = true /\
    int_part <> EmptyString /\ all_chars is_digit int_part = true /\
    frac_part <> EmptyString /\ all_chars is_digit frac_part = true /\
    captured = int_part +:+ "." +:+ frac_part.

(** A code unit other than the opening bracket. *)
Definition not_bracket (c : ascii) : bool := negb (Ascii.eqb "[" c).

(** [output.match(/\[download\]\s+(\d+\.\d+)%/)]: the leftmost position
    where the pattern matches decides; [None] is [null], [Some p] is a
    match whose group 1 is [p]. *)
Fixpoint progress_match (output : string) : option string :=
  match progress_match_here output with
  | Some p => Some p
  | None =>
      match output with
      | EmptyString => None
      | String _ rest => progress_match rest
      end
  end.

(** The value of a run of decimal digits, most significant first. *)
Fixpoint digits_value (acc : Z) (s : string) : Z :=
  match s with
  | EmptyString => acc
  | String c rest =>
      digits_value (10 * acc + (Z.of_nat (nat_of_ascii c) - 48)) rest
  end.

(** [parseFloat] on the texts the pattern captures, [digits.digits]: the
    decimal number they spell, as a reduced fraction.  A JavaScript
    number is the double nearest to it; for 42.5, 0.0 or 100.0 that is
    the fraction itself. *)
Definition parseFloat (s : string) : Q :=
  let int_part := take_while is_digit s in
  match drop_while is_digit s with
  | String "."%char r =>
      let frac_part := take_while is_digit r in
      Qred (Qmake (digits_value 0 (int_part +:+ frac_part))
                  (Pos.pow 10 (Pos.of_nat (String.length frac_part))))
  | _ => inject_Z (digits_value 0 int_part)
  end.

(** A template literal's rendering of a small non-negative integer. *)
Definition show_nat (n : nat) : string :=
  NilEmpty.string_of_uint (Nat.to_uint n).

(** The values handed to [JSON.stringify] and [res.json]: an object is
    its list of fields in source order, a field whose value is
    [undefined] being left out. *)
Inductive json : Type :=
| JNull
| JStr (s : string)
| JNum (q : Q)
| JArr (items : list json)
| JObj (fields : list (string * json)).

(** [obj[key]]: the first field of that name. *)
Fixpoint field (key : string) (fields : list (string * json)) : option json :=
  match fields with
  | [] => None
  | (k, v) :: rest => if String.eqb k key then Some v else field key rest
  end.

Definition get (key : string) (j : json) : option json :=
  match j with
  | JObj fields => field key fields
  | _ => None
  end.

(** No position among the first [n] of [s] starts a match of the
    pattern. *)
Fixpoint matches_nowhere_before (n : nat) (s : string) : bool :=
  match n with
  | O => true
  | S k =>
      match progress_match_here s with
      | Some _ => false
      | None =>
          match s with
          | EmptyString => true
          | String _ rest => matches_nowhere_before k rest
          end
      end
  end.



End JS.

(** ** The WebSocket fan-out *)

Module Ws.

(** A socket of [wss.clients]: its [readyState] (1 is OPEN) and the
    messages it was sent, oldest first. *)
Record Client : Type := mkClient {
  readyState : Z;
  inbox : list JS.json
}.

Definition send (msg : JS.json) (c : Client) : Client :=
  {| readyState := readyState c; inbox := inbox c ++ [msg] |}.

(** [wss.clients.forEach(client => { if (client.readyState === 1)
    client.send(JSON.stringify(msg)); })] *)
Definition broadcast (msg : JS.json) (clients : list Client) : list Client :=
  map (fun c => if readyState c =? 1 then send msg c else c) clients.

(** [after] is [before] once [msg] went to every open socket and to no
    other: the sockets are the same, in the same states, and exactly the
    open ones have [msg] as their newest message. *)
Definition delivered (msg : JS.json) (before after : list Client) : Prop :=
  Forall2
    (fun c c' =>
       readyState c' = readyState c /\
       (readyState c = 1 -> inbox c' = inbox c ++ [msg]) /\
       (readyState c <> 1 -> inbox c' = inbox c))
    before after.

End Ws.

(** ** The HTTP response object *)

Module Http.

Inductive Payload : Type :=
| Bytes (data : string)
| Text (s : string)
| Json (j : JS.json).

Record Response : Type := mkResponse {
  statusCode : Z;
  headers : list (string * string);
  headersSent : bool;
  body : list Payload;
  finished : bool
}.

(** The response Express hands to a route handler. *)
Definition fresh : Response :=
  {| statusCode := 200; headers := []; headersSent := false;
     body := []; finished := false |}.

(** [res.setHeader(name, value)] throws once the headers are sent
    ([None]); otherwise it replaces the header of that name. *)
Definition setHeader (name value : string) (res : Response) : option Response :=
  if headersSent res then None
  else Some {| statusCode := statusCode res;
               headers := filter (fun h => h.1 <> name) (headers res) ++ [(name, value)];
               headersSent := false;
               body := body res;
               finished := finished res |}.

(** [res.write(data)]: the first write flushes the headers, so
    [res.headersSent] is true from then on. *)
Definition write (data : string) (res : Response) : Response :=
  if finished res then res
  else {| statusCode := statusCode res; headers := headers res;
          headersSent := true;
          body := body res ++ [Bytes data];
          finished := false |}.

(** [res.end()] *)
Definition end_ (res : Response) : Response :=
  {| statusCode := statusCode res; headers := headers res;
     headersSent := true; body := body res; finished := true |}.

(** [res.status(code)] *)
Definition status (code : Z) (res : Response) : Response :=
  {| statusCode := code; headers := headers res;
     headersSent := headersSent res; body := body res;
     finished := finished res |}.

(** [res.json(j)] and [res.send(text)] write one payload and end the
    response.  Every call of the server is on a response whose headers
    are not sent yet: a fresh one, or under [if (!res.headersSent)]. *)
Definition json (j : JS.json) (res : Response) : Response :=
  {| statusCode := statusCode res; headers := headers res;
     headersSent := true; body := body res ++ [Json j]; finished := true |}.

Definition send (text : string) (res : Response) : Response :=
  {| statusCode := statusCode res; headers := headers res;
     headersSent := true; body := body res ++ [Text text]; finished := true |}.

(** [readable.pipe(res)]: every chunk of the readable is written to the
    response, and the response is ended when the readable ends. *)
Definition pipe (chunks : list string) (res : Response) : Response :=
  end_ (fold_left (fun r chunk => write chunk r) chunks res).

End Http.

(** ** Process-wide state *)

(** A value of [activeDownloads]: the subprocess (the index of its
    [spawn] call), the last progress figure and, in the retrying revision,
    the attempt. *)
Record DownloadEntry : Type := mkEntry {
  process : nat;
  progress : Q;
  attempt : option nat
}.

(** A value of [metadataCache].  The callback that fills the cache is
    not embedded; only [metadataCache.has(id)] is read here. *)
Record Metadata : Type := mkMetadata {
  title : string;
  duration : Z;
  uploader : string
}.

(** The module-level maps, the sockets, and the argument list of every
    [spawn(YT_DLP_CMD, args)] so far, oldest first.  A key of
    [rateLimitMap] is [req.ip || req.connection.remoteAddress], which can
    be [undefined] ([None]). *)
Record World : Type := mkWorld {
  activeDownloads : gmap string DownloadEntry;
  rateLimitMap : gmap (option string) (list Z);
  metadataCache : gmap string Metadata;
  clients : list Ws.Client;
  spawned : list (list string)
}.

Definition set_activeDownloads (f : gmap string DownloadEntry -> gmap string DownloadEntry)
    (w : World) : World :=
  {| activeDownloads := f (activeDownloads w); rateLimitMap := rateLimitMap w;
     metadataCache := metadataCache w; clients := clients w;
     spawned := spawned w |}.

Definition set_rateLimitMap (m : gmap (option string) (list Z)) (w : World) : World :=
  {| activeDownloads := activeDownloads w; rateLimitMap := m;
     metadataCache := metadataCache w; clients := clients w;
     spawned := spawned w |}.

(** [wss.clients.forEach(...)] with the message [msg]. *)
Definition broadcast (msg : JS.json) (w : World) : World :=
  {| activeDownloads := activeDownloads w; rateLimitMap := rateLimitMap w;
     metadataCache := metadataCache w; clients := Ws.broadcast msg (clients w);
     spawned := spawned w |}.

(** [spawn(YT_DLP_CMD, args)]: the new subprocess and the world that
    remembers it. *)
Definition spawn (args : list string) (w : World) : nat * World :=
  (length (spawned w),
   {| activeDownloads := activeDownloads w; rateLimitMap := rateLimitMap w;
      metadataCache := metadataCache w; clients := clients w;
      spawned := spawned w ++ [args] |}).

(** [`attachment; filename="${id}.webm"`] *)
Definition content_disposition (id : string) : string :=
  let quote := String (ascii_of_nat 34) EmptyString in
  "attachment; filename=" +:+ quote +:+ id +:+ ".webm" +:+ quote.

(** [`https://www.youtube.com/watch?v=${id}`] *)
Definition watch_url (id : string) : string :=
  "https://www.youtube.com/watch?v=" +:+ id.

(** An Express request, as far as the handlers read it. *)
Record Request : Type := mkRequest {
  query_q : option string;
  query_id : option string;
  ip : option string;
  remoteAddress : option string
}.

(** [req.ip || req.connection.remoteAddress], the address the limiter
    is asked about. *)
Definition clientIP (req : Request) : option string :=
  JS.or_else (ip req) (remoteAddress req).

(** ** Rate limiter (lines 57-99 and 736-765, the same text) *)

Module RateLimiter.

Definition RATE_LIMIT_WINDOW : Z := 60 * 1000.
Definition RATE_LIMIT_MAX : nat := 3.

(** [checkRateLimit(ip)], with [Date.now()] as [now]: the verdict and the
    map it leaves. *)
Definition checkRateLimit (ip : option string) (now : Z)
    (rateLimitMap : gmap (option string) (list Z))
    : bool * gmap (option string) (list Z) :=
  let userRequests := default [] (rateLimitMap !! ip) in
  let recentRequests :=
    filter (fun time => now - time < RATE_LIMIT_WINDOW) userRequests in
  if decide (RATE_LIMIT_MAX <= length recentRequests)%nat
  then (false, rateLimitMap)
  else (true, <[ip := recentRequests ++ [now]]> rateLimitMap).

(** A run of calls, each [(ip, now)], oldest first: the map they leave. *)
Definition checks (calls : list (option string * Z))
    (m : gmap (option string) (list Z)) : gmap (option string) (list Z) :=
  fold_left (fun m call => (checkRateLimit call.1 call.2 m).2) calls m.

(** The instants of [l] that a call at [now] keeps. *)
Definition in_window (now : Z) (l : list Z) : list Z :=
  filter (fun time => now - time < RATE_LIMIT_WINDOW) l.

(** No list stored in the map is longer than [RATE_LIMIT_MAX]. *)
Definition bounded (m : gmap (option string) (list Z)) : Prop :=
  forall ip l, m !! ip = Some l -> (length l <= RATE_LIMIT_MAX)%nat.

End RateLimiter.

(** ** Search relay ([app.get("/search")], the same text in all revisions) *)

Module Search.

(** An item the provider returns: [v.id], [v.title], [v.duration] in
    milliseconds, and [v.thumbnail?.url]. *)
Record Video : Type := mkVideo {
  v_id : string;
  v_title : string;
  v_duration : Z;
  v_thumbnail_url : option string
}.

(** The option object [{ limit: 10, type: "video" }]. *)
Record Options : Type := mkOptions {
  limit : Z;
  type : string
}.

(** What a request did: the calls of [YouTube.search] it made, in order,
    and the response it sent. *)
Record Outcome : Type := mkOutcome {
  provider_calls : list (string * Options);
  response : Http.Response
}.

(** [v => ({ id, title, duration: Math.floor(v.duration / 1000),
    thumbnail: v.thumbnail?.url })] *)
Definition simplified (v : Video) : JS.json :=
  JS.JObj ([("id", JS.JStr (v_id v));
            ("title", JS.JStr (v_title v));
            ("duration", JS.JNum (inject_Z (v_duration v / 1000)))]
           ++ match v_thumbnail_url v with
              | Some url => [("thumbnail", JS.JStr url)]
              | None => []
              end).

Section Handler.

(** [YouTube.search]: the list it resolves to, or [None] when the
    promise rejects. *)
Variable YouTube_search : string -> Options -> option (list Video).

Definition search (req : Request) : Outcome :=
  let q := query_q req in
  if negb (JS.truthy q) then
    {| provider_calls := []; response := Http.json (JS.JArr []) Http.fresh |}
  else
    let text := default EmptyString q in
    let options := {| limit := 10; type := "video" |} in
    match YouTube_search text options with
    | Some results =>
        {| provider_calls := [(text, options)];
           response := Http.json (JS.JArr (map simplified results)) Http.fresh |}
    | None =>
        {| provider_calls := [(text, options)];
           response :=
             Http.json (JS.JObj [("error", JS.JStr "search_failed")])
                       (Http.status 500 Http.fresh) |}
    end.

End Handler.

End Search.

(** ** Progress classification (the [if]/[else if] chain of the [stderr]
    callback, the same tests in all revisions) *)

Module Classifier.

(** The local variables of the callback once the chain has run.
    [progressMatch] is the result of [output.match(...)], which only the
    downloading branch evaluates; the other branches leave it [None]. *)
Record Classification : Type := mkClassification {
  phase : string;
  color : string;
  stepNumber : nat;
  totalSteps : nat;
  message : string;
  progressMatch : option string
}.

(** [`${stepNumber}/${totalSteps} ${what}`] *)
Definition step_message (stepNumber totalSteps : nat) (what : string) : string :=
  JS.show_nat stepNumber +:+ "/" +:+ JS.show_nat totalSteps +:+ " " +:+ what.

Definition classify (output : string) : Classification :=
  let totalSteps := 5%nat in
  if JS.includes output "Extracting URL" then
    {| phase := "extracting"; color := "#ff6b6b"; stepNumber := 1;
       totalSteps := totalSteps;
       message := step_message 1 totalSteps "Extracting...";
       progressMatch := None |}
  else if JS.includes output "Downloading webpage" then
    {| phase := "webpage"; color := "#ffa500"; stepNumber := 2;
       totalSteps := totalSteps;
       message := step_message 2 totalSteps "Getting webpage...";
       progressMatch := None |}
  else if JS.includes output "Downloading android" || JS.includes output "player API" then
    {| phase := "api"; color := "#ffff00"; stepNumber := 3;
       totalSteps := totalSteps;
       message := step_message 3 totalSteps "Getting API...";
       progressMatch := None |}
  else if JS.includes output "Downloading m3u8" || JS.includes output "information" then
    {| phase := "info"; color := "#87ceeb"; stepNumber := 4;
       totalSteps := totalSteps;
       message := step_message 4 totalSteps "Getting stream info...";
       progressMatch := None |}
  else if JS.includes output "[download]" && JS.includes output "%" then
    {| phase := "downloading"; color := "#00ff00"; stepNumber := 5;
       totalSteps := totalSteps;
       message := "0/5 Preparing...";
       progressMatch := JS.progress_match output |}
  else
    {| phase := "preparing"; color := "#ff6b6b"; stepNumber := 0;
       totalSteps := totalSteps;
       message := "0/5 Preparing...";
       progressMatch := None |}.

(** The tests the chain runs before it comes to the downloading one. *)
Definition earlier_marker (output : string) : bool :=
  JS.includes output "Extracting URL" ||
  JS.includes output "Downloading webpage" ||
  (JS.includes output "Downloading android" || JS.includes output "player API") ||
  (JS.includes output "Downloading m3u8" || JS.includes output "information").

(** The [phase] message both kinds of revision broadcast when the
    callback does not return early. *)
Definition phase_event (id : string) (c : Classification) (message : string) : JS.json :=
  JS.JObj [("type", JS.JStr "phase"); ("id", JS.JStr id);
           ("phase", JS.JStr (phase c)); ("color", JS.JStr (color c));
           ("message", JS.JStr message)].

End Classifier.

(** ** The retrying revision (lines 153-388) *)

Module Retrying.

Definition maxAttempts : nat := 3.

(** The three strategies of [tryDownloadWithFallbacks]: the value after
    [-f], after [--extractor-args] and after [--user-agent]. *)
Record Strategy : Type := mkStrategy {
  format : string;
  player_client : string;
  user_agent : string
}.

Definition strategy (attempt : nat) : Strategy :=
  match attempt with
  | 1%nat =>
      {| format := "bestaudio[ext=webm]/bestaudio[ext=m4a]/bestaudio";
         player_client := "youtube:player_client=android,web";
         user_agent := "Mozilla/5.0 (Linux; Android 10; SM-G973F) AppleWebKit/537.36 (KHTML, like Gecko) Chrome/120.0.0.0 Mobile Safari/537.36" |}
  | 2%nat =>
      {| format := "bestaudio[ext=webm]/bestaudio[ext=m4a]/bestaudio";
         player_client := "youtube:player_client=ios,web";
         user_agent := "Mozilla/5.0 (iPhone; CPU iPhone OS 15_0 like Mac OS X) AppleWebKit/605.1.15 (KHTML, like Gecko) Version/15.0 Mobile/15E148 Safari/604.1" |}
  | _ =>
      {| format := "bestaudio";
         player_client := "youtube:player_client=web";
         user_agent := "Mozilla/5.0 (Windows NT 10.0; Win64; x64) AppleWebKit/537.36 (KHTML, like Gecko) Chrome/120.0.0.0 Safari/537.36" |}
  end.

(** The argument list [args] of an attempt. *)
Definition args (cookiesPath id : string) (attempt : nat) : list string :=
  let s := strategy attempt in
  match attempt with
  | 1%nat | 2%nat =>
      ["--cookies"; cookiesPath;
       "-f"; format s;
       "--no-warnings"; "--progress"; "--newline";
       "--extractor-args"; player_client s;
       "--user-agent"; user_agent s;
       "--geo-bypass"; "--socket-timeout"; "30";
       "--no-playlist"; watch_url id; "-o"; "-"]
  | _ =>
      ["--cookies"; cookiesPath;
       "-f"; format s; "--no-warnings"; "--progress"; "--newline";
       "--extractor-args"; player_client s;
       "--user-agent"; user_agent s;
       "--no-playlist"; watch_url id; "-o"; "-"]
  end.

(** What the callbacks of one attempt close over: the parameters [id],
    [res] and [attempt], and the locals [hasData] and [errorOutput]. *)
Record Attempt : Type := mkAttempt {
  a_id : string;
  a_attempt : nat;
  res : Http.Response;
  hasData : bool;
  errorOutput : string
}.

Definition set_res (r : Http.Response) (a : Attempt) : Attempt :=
  {| a_id := a_id a; a_attempt := a_attempt a; res := r;
     hasData := hasData a; errorOutput := errorOutput a |}.

(** How the promise of an attempt goes on after [close] or [error]:
    [resolve()], [reject(...)], or [setTimeout(() =>
    tryDownloadWithFallbacks(id, res, next), delay)]. *)
Inductive Settlement : Type :=
| Resolved
| Rejected
| RetryAfter (delay_ms : Z) (next_attempt : nat).

(** The body of [tryDownloadWithFallbacks] up to the registration of the
    callbacks.  When a [res.setHeader] throws, the executor of the promise
    is left before any callback is registered and the promise rejects:
    [None]. *)
Definition tryDownloadWithFallbacks (cookiesPath id : string) (r : Http.Response)
    (attempt : nat) (w : World) : World * option Attempt :=
  let '(ytdlp, w) := spawn (args cookiesPath id attempt) w in
  let w :=
    set_activeDownloads
      (insert id {| process := ytdlp; progress := 0; attempt := Some attempt |}) w in
  match
    Http.setHeader "Content-Type" "audio/webm" r ≫=
    Http.setHeader "Content-Disposition"
                   (content_disposition id)
  with
  | Some r =>
      (w, Some {| a_id := id; a_attempt := attempt; res := r;
                  hasData := false; errorOutput := EmptyString |})
  | None => (w, None)
  end.

(** [ytdlp.stdout.on('data', data => ...)] *)
Definition on_stdout (data : string) (a : Attempt) : Attempt :=
  let a := {| a_id := a_id a; a_attempt := a_attempt a; res := res a;
              hasData := true; errorOutput := errorOutput a |} in
  if negb (Http.headersSent (res a)) then set_res (Http.write data (res a)) a
  else a.

Definition progress_event (id phase : string) (percent : Q) : JS.json :=
  JS.JObj [("type", JS.JStr "progress"); ("videoId", JS.JStr id);
           ("phase", JS.JStr phase); ("percent", JS.JNum percent)].

(** [ytdlp.stderr.on("data", d => ...)], [output] being [d.toString()].
    [activeDownloads.get(id).progress = progress] throws a [TypeError]
    when the map has no entry for [id]; nothing catches it: [None]. *)
Definition on_stderr (output : string) (w : World) (a : Attempt)
    : option (World * Attempt) :=
  let a := {| a_id := a_id a; a_attempt := a_attempt a; res := res a;
              hasData := hasData a;
              errorOutput := errorOutput a +:+ output |} in
  let c := Classifier.classify output in
  match Classifier.progressMatch c with
  | Some captured =>
      let progress := JS.parseFloat captured in
      match activeDownloads w !! a_id a with
      | None => None
      | Some entry =>
          let w :=
            set_activeDownloads
              (insert (a_id a)
                 {| process := process entry; progress := progress;
                    attempt := attempt entry |}) w in
          Some (broadcast (progress_event (a_id a) (Classifier.phase c) progress) w, a)
      end
  | None =>
      Some (broadcast
              (Classifier.phase_event (a_id a) c
                 ("Attempt " +:+ JS.show_nat (a_attempt a) +:+ ": "
                  +:+ Classifier.message c)) w,
            a)
  end.

Definition complete_event (id : string) (attempt : nat) : JS.json :=
  JS.JObj [("type", JS.JStr "complete"); ("id", JS.JStr id);
           ("message",
            JS.JStr ("Download completed! (Attempt " +:+ JS.show_nat attempt +:+ ")"))].

Definition retrying_event (id : string) (attempt : nat) : JS.json :=
  JS.JObj [("type", JS.JStr "phase"); ("id", JS.JStr id);
           ("phase", JS.JStr "retrying"); ("color", JS.JStr "#ffa500");
           ("message",
            JS.JStr ("Attempt " +:+ JS.show_nat attempt
                     +:+ " failed, trying different method..."))].

Definition failed_event (id : string) : JS.json :=
  JS.JObj [("type", JS.JStr "error"); ("id", JS.JStr id);
           ("message",
            JS.JStr ("Download failed after " +:+ JS.show_nat maxAttempts
                     +:+ " attempts. YouTube may be blocking requests."));
           ("error", JS.JStr "all_attempts_failed")].

Definition failed_payload : JS.json :=
  JS.JObj [("error", JS.JStr "Download failed");
           ("message",
            JS.JStr ("All " +:+ JS.show_nat maxAttempts
                     +:+ " attempts failed. YouTube may be temporarily blocking requests."));
           ("attempts", JS.JNum (inject_Z (Z.of_nat maxAttempts)))].

(** The test of the success branch, [code === 0 && hasData]; the exit
    code is [null] ([None]) when a signal ended the subprocess. *)
Definition succeeded (code : option Z) (a : Attempt) : bool :=
  bool_decide (code = Some 0) && hasData a.

(** The test under "Check if we should retry". *)
Definition should_retry (code : option Z) (a : Attempt) : bool :=
  bool_decide (a_attempt a < maxAttempts)%nat &&
  (JS.includes (errorOutput a) "Sign in to confirm" ||
   JS.includes (errorOutput a) "bot" ||
   bool_decide (code = Some 1)).

(** The retry condition in the words of the specification: "exit code
    is non-zero AND stderr text contains a bot-detection marker OR the
    exit code equals 1". *)
Definition retry_condition_as_specified (code : option Z) (errorOutput : string) : Prop :=
  (code <> Some 0 /\
   (JS.includes errorOutput "Sign in to confirm" = true \/
    JS.includes errorOutput "bot" = true)) \/
  code = Some 1.

(** [ytdlp.on("close", code => ...)] *)
Definition on_close (code : option Z) (w : World) (a : Attempt)
    : World * Attempt * Settlement :=
  let w := set_activeDownloads (delete (a_id a)) w in
  if succeeded code a then
    let w := broadcast (complete_event (a_id a) (a_attempt a)) w in
    let a := if negb (Http.headersSent (res a))
             then set_res (Http.end_ (res a)) a else a in
    (w, a, Resolved)
  else if should_retry code a then
    let w := broadcast (retrying_event (a_id a) (a_attempt a)) w in
    (w, a, RetryAfter 2000 (a_attempt a + 1))
  else
    let w := broadcast (failed_event (a_id a)) w in
    let a := if negb (Http.headersSent (res a))
             then set_res (Http.json failed_payload (Http.status 500 (res a))) a
             else a in
    (w, a, Rejected).

(** [ytdlp.on("error", err => ...)], [err_message] being [err.message]. *)
Definition on_error (err_message : string) (w : World) (a : Attempt)
    : World * Attempt * Settlement :=
  let w := set_activeDownloads (delete (a_id a)) w in
  if bool_decide (a_attempt a < maxAttempts)%nat then
    (w, a, RetryAfter 2000 (a_attempt a + 1))
  else
    let a := if negb (Http.headersSent (res a))
             then set_res
                    (Http.json (JS.JObj [("error", JS.JStr "Download failed");
                                         ("message", JS.JStr err_message)])
                               (Http.status 500 (res a))) a
             else a in
    (w, a, Rejected).

Definition rate_limited_payload : JS.json :=
  JS.JObj [("error",
            JS.JStr "Rate limit exceeded. Please wait before downloading again.");
           ("retryAfter", JS.JNum 60)].

(** What [app.get("/download")] has done when it first yields to the
    event loop: the world, the response as it stands, and the attempt
    whose callbacks are registered, if any. *)
Record Started : Type := mkStarted {
  world : World;
  response : Http.Response;
  running : option Attempt
}.

(** [app.get("/download", async (req, res) => ...)], with [Date.now()]
    as [now]. *)
Definition download (cookiesPath : string) (req : Request) (now : Z) (w : World)
    : Started :=
  if negb (JS.truthy (query_id req)) then
    {| world := w; response := Http.send "video id required" Http.fresh;
       running := None |}
  else
    let id := default EmptyString (query_id req) in
    let '(allowed, limits) :=
      RateLimiter.checkRateLimit (clientIP req) now (rateLimitMap w) in
    let w := set_rateLimitMap limits w in
    if negb allowed then
      {| world := w;
         response := Http.json rate_limited_payload (Http.status 429 Http.fresh);
         running := None |}
    else
      let '(w, a) := tryDownloadWithFallbacks cookiesPath id Http.fresh 1 w in
      {| world := w;
         response := match a with Some a => res a | None => Http.fresh end;
         running := a |}.

End Retrying.

(** ** The simple revision (lines 509-673) *)

Module Simple.

(** What the callbacks of one download close over: [id] and [res]. *)
Record Download : Type := mkDownload {
  d_id : string;
  res : Http.Response
}.

Record Started : Type := mkStarted {
  world : World;
  response : Http.Response;
  running : option Download
}.

Definition metadataArgs (id : string) : list string :=
  ["--print"; "%(title)s|||%(duration)s|||%(uploader)s"; "--no-warnings";
   "--no-playlist"; watch_url id].

Definition args (id : string) : list string :=
  ["-f"; "bestaudio";
   "--no-warnings";
   "--progress";
   "--newline";
   "--concurrent-fragments"; "4";
   "--limit-rate"; "10M";
   "--no-playlist";
   watch_url id;
   "-o"; "-"].

(** The part of the handler after the checks, shared with the
    rate-limited revision, which differs in the two argument lists: the
    metadata subprocess when the cache has no entry, the extraction
    subprocess, the entry, the two headers. *)
Definition start (metadataArgs args : list string) (id : string) (w : World) : Started :=
  let w := if bool_decide (metadataCache w !! id = None)
           then (spawn metadataArgs w).2 else w in
  let '(ytdlp, w) := spawn args w in
  let w :=
    set_activeDownloads
      (insert id {| process := ytdlp; progress := 0; attempt := None |}) w in
  let r :=
    default Http.fresh
      (Http.setHeader "Content-Type" "audio/webm" Http.fresh ≫=
       Http.setHeader "Content-Disposition" (content_disposition id)) in
  {| world := w; response := r; running := Some {| d_id := id; res := r |} |}.

(** [app.get("/download", (req, res) => ...)] *)
Definition download (req : Request) (w : World) : Started :=
  if negb (JS.truthy (query_id req)) then
    {| world := w; response := Http.send "video id required" Http.fresh;
       running := None |}
  else
    let id := default EmptyString (query_id req) in
    start (metadataArgs id) (args id) id w.

(** [ytdlp.stdout.pipe(res)], one chunk of [stdout] and its end. *)
Definition on_stdout (data : string) (d : Download) : Download :=
  {| d_id := d_id d; res := Http.write data (res d) |}.

Definition on_stdout_end (d : Download) : Download :=
  {| d_id := d_id d; res := Http.end_ (res d) |}.

Definition progress_event (id : string) (progress : Q) (c : Classifier.Classification)
    (message : string) : JS.json :=
  JS.JObj [("type", JS.JStr "progress"); ("id", JS.JStr id);
           ("progress", JS.JNum progress);
           ("phase", JS.JStr (Classifier.phase c));
           ("color", JS.JStr (Classifier.color c));
           ("message", JS.JStr message)].

Definition error_event (id : string) : JS.json :=
  JS.JObj [("type", JS.JStr "error"); ("id", JS.JStr id);
           ("message", JS.JStr "Download failed")].

Definition complete_event (id : string) : JS.json :=
  JS.JObj [("type", JS.JStr "complete"); ("id", JS.JStr id);
           ("message", JS.JStr "Download complete!")].

Section Callbacks.

(** [progress.toFixed(1)], the runtime's rendering of a number with one
    decimal. *)
Variable toFixed1 : Q -> string.

(** The downloading branch when the pattern matched: the [progress]
    broadcast, then the guarded update of the entry; the callback
    returns there. *)
Definition report_progress (captured : string) (c : Classifier.Classification)
    (w : World) (d : Download) : World :=
  let progress := JS.parseFloat captured in
  let message := "Downloading: " +:+ toFixed1 progress +:+ "%" in
  let w := broadcast (progress_event (d_id d) progress c message) w in
  match activeDownloads w !! d_id d with
  | Some entry =>
      set_activeDownloads
        (insert (d_id d)
           {| process := process entry; progress := progress;
              attempt := attempt entry |}) w
  | None => w
  end.

(** [ytdlp.stderr.on("data", d => ...)], [output] being [d.toString()]. *)
Definition on_stderr (output : string) (w : World) (d : Download) : World :=
  let c := Classifier.classify output in
  match Classifier.progressMatch c with
  | Some captured => report_progress captured c w d
  | None =>
      broadcast (Classifier.phase_event (d_id d) c (Classifier.message c)) w
  end.

End Callbacks.

(** [ytdlp.on("error", err => ...)] *)
Definition on_error (w : World) (d : Download) : World * Download :=
  let w := set_activeDownloads (delete (d_id d)) w in
  let w := broadcast (error_event (d_id d)) w in
  if negb (Http.headersSent (res d))
  then (w, {| d_id := d_id d;
              res := Http.send "Download failed" (Http.status 500 (res d)) |})
  else (w, d).

(** [ytdlp.on("close", code => ...)] *)
Definition on_close (code : option Z) (w : World) (d : Download) : World * Download :=
  let w := set_activeDownloads (delete (d_id d)) w in
  if bool_decide (code = Some 0) then
    (broadcast (complete_event (d_id d)) w, d)
  else if negb (Http.headersSent (res d))
  then (w, {| d_id := d_id d;
              res := Http.send "Download failed" (Http.status 500 (res d)) |})
  else (w, d).

End Simple.

(** ** The rate-limited simple revision (lines 736-1044) *)

Module SimpleLimited.

Definition userAgents : list string :=
  ["Mozilla/5.0 (Windows NT 10.0; Win64; x64) AppleWebKit/537.36 (KHTML, like Gecko) Chrome/120.0.0.0 Safari/537.36";
   "Mozilla/5.0 (Windows NT 10.0; Win64; x64) AppleWebKit/537.36 (KHTML, like Gecko) Chrome/119.0.0.0 Safari/537.36";
   "Mozilla/5.0 (Macintosh; Intel Mac OS X 10_15_7) AppleWebKit/537.36 (KHTML, like Gecko) Chrome/120.0.0.0 Safari/537.36";
   "Mozilla/5.0 (X11; Linux x86_64) AppleWebKit/537.36 (KHTML, like Gecko) Chrome/120.0.0.0 Safari/537.36"].

(** [getRandomUserAgent()], [index] being
    [Math.floor(Math.random() * userAgents.length)]. *)
Definition getRandomUserAgent (index : nat) : string :=
  default "undefined" (userAgents !! index).

Definition metadataArgs (index : nat) (id : string) : list string :=
  ["--print"; "%(title)s|||%(duration)s|||%(uploader)s";
   "--no-warnings";
   "--no-playlist";
   "--add-header"; "User-Agent:" +:+ getRandomUserAgent index;
   "--geo-bypass";
   "--socket-timeout"; "30";
   watch_url id].

Definition args (index : nat) (id : string) : list string :=
  ["-f"; "bestaudio[ext=webm]/bestaudio[ext=m4a]/bestaudio";
   "--no-warnings";
   "--progress";
   "--newline";
   "--no-check-certificate";
   "--prefer-free-formats";
   "--add-header"; "User-Agent:" +:+ getRandomUserAgent index;
   "--add-header"; "Accept:text/html,application/xhtml+xml,application/xml;q=0.9,image/webp,*/*;q=0.8";
   "--add-header"; "Accept-Language:en-US,en;q=0.5";
   "--add-header"; "Accept-Encoding:gzip, deflate";
   "--add-header"; "Connection:keep-alive";
   "--add-header"; "Upgrade-Insecure-Requests:1";
   "--extractor-args"; "youtube:skip=hls,dash";
   "--concurrent-fragments"; "1";
   "--limit-rate"; "5M";
   "--no-playlist";
   "--geo-bypass";
   "--socket-timeout"; "30";
   watch_url id;
   "-o"; "-"].

(** [app.get("/download", (req, res) => ...)], with [Date.now()] as [now]
    and the two random indices the argument lists draw. *)
Definition download (index_metadata index_args : nat) (req : Request) (now : Z)
    (w : World) : Simple.Started :=
  if negb (JS.truthy (query_id req)) then
    {| Simple.world := w;
       Simple.response := Http.send "video id required" Http.fresh;
       Simple.running := None |}
  else
    let id := default EmptyString (query_id req) in
    let '(allowed, limits) :=
      RateLimiter.checkRateLimit (clientIP req) now (rateLimitMap w) in
    let w := set_rateLimitMap limits w in
    if negb allowed then
      {| Simple.world := w;
         Simple.response :=
           Http.json Retrying.rate_limited_payload (Http.status 429 Http.fresh);
         Simple.running := None |}
    else
      Simple.start (metadataArgs index_metadata id) (args index_args id) id w.

Definition bot_detection_event (id : string) : JS.json :=
  JS.JObj [("type", JS.JStr "error"); ("id", JS.JStr id);
           ("message", JS.JStr "YouTube blocked request - try again later");
           ("error", JS.JStr "bot_detection")].

(** The field [code: code]; the code is [null] after a signal. *)
Definition code_field (code : option Z) : list (string * JS.json) :=
  [("code", match code with Some c => JS.JNum (inject_Z c) | None => JS.JNull end)].

Definition failed_event (id : string) (code : option Z) : JS.json :=
  JS.JObj ([("type", JS.JStr "error"); ("id", JS.JStr id);
            ("message",
             JS.JStr (if bool_decide (code = Some 1)
                      then "YouTube blocked the request. Please try again in a few minutes."
                      else "Download failed. Please try a different video."));
            ("error", JS.JStr "download_failed")] ++ code_field code).

Definition failed_payload (code : option Z) : JS.json :=
  JS.JObj ([("error", JS.JStr "Download failed");
            ("message",
             JS.JStr (if bool_decide (code = Some 1)
                      then "YouTube is temporarily blocking requests. Please try again later."
                      else "Download failed. Please try a different video."))]
           ++ code_field code).

Section Callbacks.

Variable toFixed1 : Q -> string.

(** [ytdlp.stderr.on("data", d => ...)]: the callback of the simple
    revision, followed by the bot-detection test when it did not return
    early. *)
Definition on_stderr (output : string) (w : World) (d : Simple.Download) : World :=
  let c := Classifier.classify output in
  match Classifier.progressMatch c with
  | Some captured => Simple.report_progress toFixed1 captured c w d
  | None =>
      let w :=
        broadcast (Classifier.phase_event (Simple.d_id d) c (Classifier.message c)) w in
      if JS.includes output "Sign in to confirm you're not a bot"
         || JS.includes output "cookies"
      then broadcast (bot_detection_event (Simple.d_id d)) w
      else w
  end.

End Callbacks.

(** [ytdlp.on("close", code => ...)] *)
Definition on_close (code : option Z) (w : World) (d : Simple.Download)
    : World * Simple.Download :=
  let w := set_activeDownloads (delete (Simple.d_id d)) w in
  if bool_decide (code = Some 0) then
    (broadcast (Simple.complete_event (Simple.d_id d)) w, d)
  else
    let w := broadcast (failed_event (Simple.d_id d) code) w in
    if negb (Http.headersSent (Simple.res d))
    then (w, {| Simple.d_id := Simple.d_id d;
                Simple.res :=
                  Http.json (failed_payload code) (Http.status 500 (Simple.res d)) |})
    else (w, d).

End SimpleLimited.

(** ** Start-up: the cookie file (lines 24-48) *)

Module Startup.

(** The two environment variables [setupCookies] reads. *)
Record Env : Type := mkEnv {
  NODE_ENV : option string;
  YOUTUBE_COOKIES : option string
}.

(** What [setupCookies] prints: cookies loaded from the variable, copied
    to the production location, found in the project directory, or the
    warning that there are none. *)
Inductive Notice : Type :=
| LoadedFromEnvironment
| CopiedToProduction
| FoundInProject
| NoCookies.

Definition production (env : Env) : bool :=
  bool_decide (NODE_ENV env = Some "production").

(** [setupCookies()].  The file system is the map from a path to the
    content of the file there; [projectCookies] is
    [path.join(__dirname, 'cookies.txt')].  The result is the returned
    path, the file system left behind and the line printed. *)
Definition setupCookies (projectCookies : string) (env : Env)
    (files : gmap string string) : string * gmap string string * Notice :=
  let cookiesPath := if production env then "/tmp/cookies.txt" else projectCookies in
  if JS.truthy (YOUTUBE_COOKIES env) then
    (cookiesPath,
     <[cookiesPath := default EmptyString (YOUTUBE_COOKIES env)]> files,
     LoadedFromEnvironment)
  else
    match files !! projectCookies with
    | Some content =>
        if production env
        then (cookiesPath, <[cookiesPath := content]> files, CopiedToProduction)
        else (cookiesPath, files, FoundInProject)
    | None => (cookiesPath, files, NoCookies)
    end.

End Startup.

(** ** Random choices (lines 62-83 and 741-749) *)

Module Random.

(** [Math.floor(Math.random() * n)], [random] being the value of
    [Math.random()].  The tables below have four entries, and the product
    of a double with 4 is exact, so the fraction stands for the double. *)
Definition index (random : Q) (n : nat) : nat :=
  Z.to_nat (Qfloor (random * inject_Z (Z.of_nat n))).

(** The table of [getRandomUserAgent] in the retrying revision. *)
Definition userAgents : list string :=
  ["Mozilla/5.0 (Windows NT 10.0; Win64; x64) AppleWebKit/537.36 (KHTML, like Gecko) Chrome/120.0.0.0 Safari/537.36";
   "Mozilla/5.0 (Macintosh; Intel Mac OS X 10_15_7) AppleWebKit/537.36 (KHTML, like Gecko) Chrome/120.0.0.0 Safari/537.36";
   "Mozilla/5.0 (Linux; Android 10; SM-G973F) AppleWebKit/537.36 (KHTML, like Gecko) Chrome/120.0.0.0 Mobile Safari/537.36";
   "Mozilla/5.0 (Linux; Android 11; Pixel 5) AppleWebKit/537.36 (KHTML, like Gecko) Chrome/120.0.0.0 Mobile Safari/537.36"].

Definition extractorOptions : list string :=
  ["youtube:player_client=android,web";
   "youtube:player_client=ios,web";
   "youtube:player_client=web,android";
   "youtube:skip=hls,dash;player_client=android"].

(** [table[Math.floor(Math.random() * table.length)]]; [None] is
    [undefined]. *)
Definition pick (table : list string) (random : Q) : option string :=
  table !! index random (length table).

(** [getRandomUserAgent()] and [getExtractorArgs()] of the retrying
    revision, and [getRandomUserAgent()] of the rate-limited simple
    one. *)
Definition getRandomUserAgent (random : Q) : option string :=
  pick userAgents random.

Definition getExtractorArgs (random : Q) : option string :=
  pick extractorOptions random.

Definition getRandomUserAgent_limited (random : Q) : option string :=
  pick SimpleLimited.userAgents random.

End Random.

(** ** Metadata prefetch (lines 517-531 and 833-855) *)

Module MetadataPrefetch.

(** [s.trim()]: white space and line terminators off both ends. *)
Fixpoint trim_end (s : string) : string :=
  match s with
  | EmptyString => EmptyString
  | String c rest =>
      match trim_end rest with
      | EmptyString => if JS.is_space c then EmptyString else String c EmptyString
      | String _ _ as kept => String c kept
      end
  end.

Definition trim (s : string) : string :=
  trim_end (JS.drop_while JS.is_space s).

(** [s.split(sep)] for a separator that is not empty.  [cur] is the
    piece being read, [skip] the number of code units of a separator just
    found that are still to be passed over. *)
Fixpoint split_go (sep : string) (skip : nat) (cur : string) (s : string)
    : list string :=
  match s with
  | EmptyString => [cur]
  | String c rest =>
      match skip with
      | S k => split_go sep k cur rest
      | O =>
          if JS.starts_with sep s
          then cur :: split_go sep (String.length sep - 1) EmptyString rest
          else split_go sep 0 (cur +:+ String c EmptyString) rest
      end
  end.

Definition split (sep s : string) : list string := split_go sep 0 EmptyString s.

(** The value of a digit in a radix, when it is one. *)
Definition digit_in (radix : Z) (c : ascii) : option Z :=
  let n := Z.of_nat (nat_of_ascii c) in
  let v := if (48 <=? n) && (n <=? 57) then Some (n - 48)
           else if (97 <=? n) && (n <=? 122) then Some (n - 87)
           else if (65 <=? n) && (n <=? 90) then Some (n - 55)
           else None in
  match v with
  | Some d => if d <? radix then Some d else None
  | None => None
  end.

(** The longest run of digits at the start of [s], read in [radix];
    [None] when [s] starts with no digit. *)
Fixpoint digits_in (radix : Z) (acc : option Z) (s : string) : option Z :=
  match s with
  | EmptyString => acc
  | String c rest =>
      match digit_in radix c with
      | Some d => digits_in radix (Some (radix * default 0 acc + d)) rest
      | None => acc
      end
  end.

(** [parseInt(s)]: leading white space, a sign, a [0x] or [0X] prefix
    that switches to radix 16, then digits; [None] is [NaN].  The integer
    is exact; a JavaScript number is the double nearest to it, the same
    below 2^53. *)
Definition parseInt (s : string) : option Z :=
  let s := JS.drop_while JS.is_space s in
  let '(sign, s) :=
    match s with
    | String "-"%char rest => (-1, rest)
    | String "+"%char rest => (1, rest)
    | _ => (1, s)
    end in
  let '(radix, s) :=
    match s with
    | String "0"%char (String "x"%char rest) => (16, rest)
    | String "0"%char (String "X"%char rest) => (16, rest)
    | _ => (10, s)
    end in
  Z.mul sign <$> digits_in radix None s.

(** [parseInt(duration) || 0], [duration] being [undefined] when the
    text has fewer than two pieces. *)
Definition duration_of (piece : option string) : Z :=
  default 0 (parseInt (default "undefined" piece)).

(** The object stored in the cache.  [title] and [uploader] stand for
    the first and third piece; a piece that is missing is [undefined],
    embedded as the text [undefined]. *)
Definition entry_of (pieces : list string) : Metadata :=
  {| title := default "undefined" (pieces !! 0%nat);
     duration := duration_of (pieces !! 1%nat);
     uploader := default "undefined" (pieces !! 2%nat) |}.

Definition set_metadataCache (f : gmap string Metadata -> gmap string Metadata)
    (w : World) : World :=
  {| activeDownloads := activeDownloads w; rateLimitMap := rateLimitMap w;
     metadataCache := f (metadataCache w); clients := clients w;
     spawned := spawned w |}.

(** [metadataProcess.stdout.on("data", d => metadata += d.toString())] *)
Definition on_stdout (d metadata : string) : string := metadata +:+ d.

(** [metadataProcess.on("close", code => ...)]: the world, and the
    delay of the timer it sets, if any. *)
Definition on_close (id : string) (code : option Z) (metadata : string)
    (w : World) : World * option Z :=
  if bool_decide (code = Some 0) && JS.truthy (Some (trim metadata)) then
    (set_metadataCache (insert id (entry_of (split "|||" (trim metadata)))) w,
     Some 3600000)
  else (w, None).

(** The timer: [() => metadataCache.delete(id)]. *)
Definition on_timer (id : string) (w : World) : World :=
  set_metadataCache (delete id) w.

(** A text without the bar [|], so without any part of the separator. *)
Definition no_bar (s : string) : bool :=
  JS.all_chars (fun c => negb (Ascii.eqb "|" c)) s.

End MetadataPrefetch.

(** ** Runs of rate-limit checks *)

Module RateLimiterRuns.

(** The instants at which the calls for [ip] out of [calls] were
    accepted, oldest first. *)
Fixpoint accepted (ip : option string) (calls : list (option string * Z))
    (m : gmap (option string) (list Z)) : list Z :=
  match calls with
  | [] => []
  | call :: rest =>
      let r := RateLimiter.checkRateLimit call.1 call.2 m in
      (if r.1 && bool_decide (call.1 = ip) then [call.2] else [])
      ++ accepted ip rest r.2
  end.

(** The clock never runs backwards over the calls, and never behind
    [start]. *)
Fixpoint clock_monotone (start : Z) (calls : list (option string * Z)) : Prop :=
  match calls with
  | [] => True
  | call :: rest => start <= call.2 /\ clock_monotone call.2 rest
  end.

(** The accepted instants of [acc] up to each one that lie in the window
    ending at it are at most [RATE_LIMIT_MAX]. *)
Definition spaced (acc : list Z) : Prop :=
  forall i a, acc !! i = Some a ->
    (length (RateLimiter.in_window a (take (S i) acc)) <= RateLimiter.RATE_LIMIT_MAX)%nat.

End RateLimiterRuns.

(** ** The outcomes of the classifier *)

(** The six outcomes of the chain: phase, step and colour. *)
Definition phase_table : list (string * nat * string) :=
  [("preparing", 0%nat, "#ff6b6b"); ("extracting", 1%nat, "#ff6b6b");
   ("webpage", 2%nat, "#ffa500"); ("api", 3%nat, "#ffff00");
   ("info", 4%nat, "#87ceeb"); ("downloading", 5%nat, "#00ff00")].

(** ** Sockets across a callback *)

Module Sockets.

(** [after] is [before] with messages added at the end of inboxes, and
    only of open sockets: the same sockets in the same order and states,
    nothing removed or reordered, nothing sent to a socket that is not
    open. *)
Definition grown (before after : list Ws.Client) : Prop :=
  Forall2
    (fun c c' =>
       Ws.readyState c' = Ws.readyState c /\
       (exists added, Ws.inbox c' = Ws.inbox c ++ added) /\
       (Ws.readyState c <> 1 -> Ws.inbox c' = Ws.inbox c))
    before after.

End Sockets.

(** ** Sample states *)

Module Sample.

(** Two sockets, the first open, the second closing. *)
Definition sockets : list Ws.Client :=
  [ {| Ws.readyState := 1; Ws.inbox := [] |};
    {| Ws.readyState := 2; Ws.inbox := [] |} ].

(** A world in which the first attempt for the video [dQw4w9WgXcQ] is
    running. *)
Definition world : World :=
  {| activeDownloads :=
       {[ "dQw4w9WgXcQ" := {| process := 0%nat; progress := 0; attempt := Some 1%nat |} ]};
     rateLimitMap := {[ Some "10.0.0.7" := [1000] ]};
     metadataCache := ∅;
     clients := sockets;
     spawned := [Retrying.args "/tmp/cookies.txt" "dQw4w9WgXcQ" 1] |}.

(** The closure of that attempt before any output. *)
Definition attempt1 : Retrying.Attempt :=
  {| Retrying.a_id := "dQw4w9WgXcQ"; Retrying.a_attempt := 1;
     Retrying.res :=
       {| Http.statusCode := 200;
          Http.headers := [("Content-Type", "audio/webm");
                           ("Content-Disposition", content_disposition "dQw4w9WgXcQ")];
          Http.headersSent := false; Http.body := []; Http.finished := false |};
     Retrying.hasData := false; Retrying.errorOutput := EmptyString |}.

(** The closure of a download of the simple revisions. *)
Definition download1 : Simple.Download :=
  {| Simple.d_id := "dQw4w9WgXcQ"; Simple.res := Retrying.res attempt1 |}.

(** A request for that video and one without [id]. *)
Definition request : Request :=
  {| query_q := None; query_id := Some "dQw4w9WgXcQ";
     ip := Some "10.0.0.7"; remoteAddress := None |}.

Definition request_without_id : Request :=
  {| query_q := None; query_id := None;
     ip := Some "10.0.0.7"; remoteAddress := None |}.

End Sample.

(** * Properties *)

(** ** Rate limiter *)

Section RateLimiterFacts.

Import RateLimiter.

Implicit Types (ip : option string) (m : gmap (option string) (list Z)).

Lemma checkRateLimit_unfold ip now m :
  checkRateLimit ip now m =
  if decide (RATE_LIMIT_MAX <= length (in_window now (default [] (m !! ip))))%nat
  then (false, m)
  else (true, <[ip := in_window now (default [] (m !! ip)) ++ [now]]> m).
Proof. reflexivity. Qed.

Lemma checkRateLimit_rejected ip now m :
  (checkRateLimit ip now m).1 = false ->
  (RATE_LIMIT_MAX <= length (in_window now (default [] (m !! ip))))%nat /\
  (checkRateLimit ip now m).2 = m.
Proof.
  rewrite checkRateLimit_unfold. case_decide; simpl; [auto | discriminate].
Qed.

Lemma checkRateLimit_accepted ip now m :
  (checkRateLimit ip now m).1 = true ->
  (length (in_window now (default [] (m !! ip))) < RATE_LIMIT_MAX)%nat /\
  (checkRateLimit ip now m).2 =
    <[ip := in_window now (default [] (m !! ip)) ++ [now]]> m.
Proof.
  rewrite checkRateLimit_unfold. case_decide; simpl; [discriminate |].
  split; [lia | reflexivity].
Qed.




(** The bound on every stored list is kept by a call. *)
Lemma checkRateLimit_bounded ip now m :
  bounded m -> bounded (checkRateLimit ip now m).2.
Proof.
  intros Hm. rewrite checkRateLimit_unfold. case_decide as Hlen; simpl; [exact Hm |].
  intros ip' l. destruct (decide (ip = ip')) as [<- | Hne].
  - rewrite lookup_insert_eq. intros [= <-]. rewrite length_app. simpl.
    unfold in_window in *. lia.
  - rewrite lookup_insert_ne by exact Hne. apply Hm.
Qed.

Lemma checks_bounded calls m : bounded m -> bounded (checks calls m).
Proof.
  revert m. induction calls as [|call calls IH]; intros m Hm; [exact Hm |].
  apply IH, checkRateLimit_bounded, Hm.
Qed.

End RateLimiterFacts.

(** ** The checks in front of [/download] *)

Section DownloadGate.

Import RateLimiter.

Variable cookiesPath : string.


End DownloadGate.



(** C9: a refused check returns the map it was given, so nothing is
    recorded and the pruned list is not stored; and after any run of
    checks from the empty map no address has more than three instants
    stored. *)
Theorem C9_rejection_leaves_state_and_bound :
  (forall ip now m,
     (RateLimiter.checkRateLimit ip now m).1 = false ->
     (RateLimiter.checkRateLimit ip now m).2 = m) /\
  (forall calls ip l,
     RateLimiter.checks calls ∅ !! ip = Some l -> (length l <= 3)%nat).
Proof.
  split.
  - intros ip now m H. apply (checkRateLimit_rejected ip now m H).
  - intros calls ip l.
    apply (checks_bounded calls ∅).
    intros ip' l'. rewrite lookup_empty. discriminate.
Qed.

(** A refused fourth check, and the map it leaves. *)
Lemma C9_witness :
  (RateLimiter.checkRateLimit (Some "10.0.0.7") 4000
     {[ Some "10.0.0.7" := [1000; 2000; 3000] ]}).2
  = {[ Some "10.0.0.7" := [1000; 2000; 3000] ]}.
Proof.
  apply (proj1 C9_rejection_leaves_state_and_bound). reflexivity.
Defined.

(** ** Strings and the progress pattern *)

Section StringFacts.

Implicit Types (s p pre post : string) (cls : ascii -> bool).

Local Arguments String.append !_ _ / : simpl nomatch.
Local Arguments Ascii.eqb : simpl never.

Lemma append_assoc s1 s2 s3 : (s1 +:+ s2) +:+ s3 = s1 +:+ (s2 +:+ s3).
Proof. induction s1 as [|c s1 IH]; simpl; [reflexivity | now rewrite IH]. Qed.

Lemma strip_prefix_app p post : JS.strip_prefix p (p +:+ post) = Some post.
Proof.
  induction p as [|c p IH]; simpl; [reflexivity |].
  rewrite Ascii.eqb_refl. exact IH.
Qed.

Lemma strip_prefix_Some p s r : JS.strip_prefix p s = Some r -> s = p +:+ r.
Proof.
  revert s. induction p as [|c p IH]; intros s; simpl.
  - now intros [= ->].
  - destruct s as [|b s]; [discriminate |].
    destruct (Ascii.eqb_spec c b) as [<- | _]; [| discriminate].
    intros H. now rewrite (IH _ H).
Qed.

Lemma starts_with_app p post : JS.starts_with p (p +:+ post) = true.
Proof. unfold JS.starts_with. now rewrite strip_prefix_app. Qed.

Lemma includes_starts_with hay needle :
  JS.starts_with needle hay = true -> JS.includes hay needle = true.
Proof. intros H. destruct hay; simpl; now rewrite H. Qed.

(** [includes] is the substring test. *)
Lemma includes_intro pre needle post :
  JS.includes (pre +:+ needle +:+ post) needle = true.
Proof.
  induction pre as [|c pre IH]; simpl.
  - apply includes_starts_with, starts_with_app.
  - rewrite IH. apply orb_true_r.
Qed.

Lemma includes_elim hay needle :
  JS.includes hay needle = true -> exists pre post, hay = pre +:+ needle +:+ post.
Proof.
  induction hay as [|c hay IH]; simpl.
  - rewrite orb_false_r. unfold JS.starts_with.
    destruct (JS.strip_prefix needle EmptyString) as [r|] eqn:E; [| discriminate].
    intros _. exists EmptyString, r. exact (strip_prefix_Some _ _ _ E).
  - intros [H | H]%orb_true_iff.
    + unfold JS.starts_with in H.
      destruct (JS.strip_prefix needle (String c hay)) as [r|] eqn:E; [| discriminate].
      exists EmptyString, r. exact (strip_prefix_Some _ _ _ E).
    + destruct (IH H) as (pre & post & ->). now exists (String c pre), post.
Qed.

(** A text that includes [needle] includes every part of [needle]. *)
Lemma includes_part hay a needle b :
  JS.includes hay (a +:+ needle +:+ b) = true -> JS.includes hay needle = true.
Proof.
  intros (pre & post & ->)%includes_elim.
  replace (pre +:+ (a +:+ needle +:+ b) +:+ post)
    with ((pre +:+ a) +:+ needle +:+ (b +:+ post))
    by now rewrite !append_assoc.
  apply includes_intro.
Qed.

(** No match of the pattern starts where the text does not start with
    the bracketed marker. *)
Lemma progress_match_here_marker s :
  JS.starts_with "[download]" s = false -> JS.progress_match_here s = None.
Proof.
  unfold JS.starts_with, JS.progress_match_here.
  destruct (JS.strip_prefix "[download]" s); [discriminate | reflexivity].
Qed.

Lemma progress_match_no_marker s :
  JS.includes s "[download]" = false -> JS.progress_match s = None.
Proof.
  induction s as [|c s IH]; [reflexivity |].
  simpl JS.includes. intros [H1 H2]%orb_false_iff.
  simpl JS.progress_match. rewrite progress_match_here_marker by exact H1. auto.
Qed.

(** The marker has no border: it cannot start inside [pre] and run over
    into a text that itself starts with the marker, unless it lies in [pre]. *)
Lemma marker_no_straddle c pre rest :
  JS.starts_with "[download]" (String c pre) = false ->
  JS.starts_with "[download]" (String c pre +:+ "[download]" +:+ rest) = false.
Proof.
  unfold JS.starts_with. simpl.
  destruct (Ascii.eqb_spec "[" c) as [<- | _]; [| reflexivity].
  repeat (destruct pre as [|? pre]; simpl; [reflexivity |];
          match goal with
          | |- context [Ascii.eqb ?x ?y] =>
              destruct (Ascii.eqb_spec x y) as [<- | _]; [| reflexivity]
          end).
  intros H; discriminate H.
Qed.

Lemma take_drop_while cls s : s = JS.take_while cls s +:+ JS.drop_while cls s.
Proof.
  induction s as [|c s IH]; simpl; [reflexivity |].
  destruct (cls c); simpl; [now rewrite <- IH | reflexivity].
Qed.

Lemma all_chars_take_while cls s : JS.all_chars cls (JS.take_while cls s) = true.
Proof.
  induction s as [|c s IH]; simpl; [reflexivity |].
  destruct (cls c) eqn:E; simpl; [now rewrite E | reflexivity].
Qed.

Lemma all_chars_head cls r :
  r <> EmptyString -> JS.all_chars cls r = true ->
  exists c t, r = String c t /\ cls c = true.
Proof.
  destruct r as [|c t]; [contradiction |]. simpl.
  intros _ [H _]%andb_true_iff. eauto.
Qed.

(** A successful run splits the text into a non-empty part in the class
    and the rest. *)
Lemma run_Some cls s r rest :
  JS.run cls s = Some (r, rest) ->
  s = r +:+ rest /\ r <> EmptyString /\ JS.all_chars cls r = true.
Proof.
  unfold JS.run. destruct (JS.take_while cls s) as [|c t] eqn:E; [discriminate |].
  intros [= <- <-]. split; [| split; [discriminate |]].
  - rewrite <- E. apply take_drop_while.
  - rewrite <- E. apply all_chars_take_while.
Qed.

(** A run stops at the first code unit outside the class. *)
Lemma run_stop cls r c rest :
  r <> EmptyString -> JS.all_chars cls r = true -> cls c = false ->
  JS.run cls (r +:+ String c rest) = Some (r, String c rest).
Proof.
  intros Hne Hall Hc. unfold JS.run.
  assert (Ht : JS.take_while cls (r +:+ String c rest) = r
               /\ JS.drop_while cls (r +:+ String c rest) = String c rest).
  { clear Hne. induction r as [|b r IH]; simpl.
    - now rewrite Hc.
    - simpl in Hall. apply andb_true_iff in Hall as [Hb Hr].
      rewrite Hb. destruct (IH Hr) as [-> ->]. auto. }
  destruct Ht as [-> ->]. destruct r; [contradiction | reflexivity].
Qed.

Lemma run_none cls c rest : cls c = false -> JS.run cls (String c rest) = None.
Proof. intros Hc. unfold JS.run. simpl. now rewrite Hc. Qed.

Lemma digit_not_space c : JS.is_digit c = true -> JS.is_space c = false.
Proof.
  unfold JS.is_digit, JS.is_space.
  rewrite !andb_true_iff, !Nat.leb_le. intros [H1 H2].
  rewrite !orb_false_iff, !andb_false_iff, !Nat.leb_gt, !Nat.eqb_neq. lia.
Qed.

(** The matcher at one position is the pattern: it answers [captured]
    exactly on the texts that start with the marker, white space, digits,
    a dot, digits and a percent sign, [captured] being the digits around
    the dot. *)
Lemma progress_match_here_correct s captured :
  JS.progress_match_here s = Some captured <-> JS.pattern_matches_at s captured.
Proof.
  unfold JS.progress_match_here, JS.pattern_matches_at. split.
  - intros H.
    destruct (JS.strip_prefix "[download]" s) as [r0|] eqn:E0; [| discriminate].
    apply strip_prefix_Some in E0. cbn -[JS.strip_prefix JS.run] in H.
    destruct (JS.run JS.is_space r0) as [[ws r1]|] eqn:E1; [| discriminate].
    cbn -[JS.strip_prefix JS.run] in H.
    destruct (JS.run JS.is_digit r1) as [[ip r2]|] eqn:E2; [| discriminate].
    cbn -[JS.strip_prefix JS.run] in H.
    destruct (JS.strip_prefix "." r2) as [r3|] eqn:E3; [| discriminate].
    cbn -[JS.strip_prefix JS.run] in H.
    destruct (JS.run JS.is_digit r3) as [[fp r4]|] eqn:E4; [| discriminate].
    cbn -[JS.strip_prefix JS.run] in H.
    destruct (JS.strip_prefix "%" r4) as [r5|] eqn:E5; [| discriminate].
    cbn -[JS.strip_prefix JS.run] in H.
    injection H as <-.
    apply run_Some in E1 as (-> & ? & ?).
    apply run_Some in E2 as (-> & ? & ?).
    apply run_Some in E4 as (-> & ? & ?).
    apply strip_prefix_Some in E3. apply strip_prefix_Some in E5. subst.
    exists ws, ip, fp, r5. repeat split; auto.
  - intros (ws & ip & fp & rest & -> & Hws & Aws & Hip & Aip & Hfp & Afp & ->).
    destruct (all_chars_head _ _ Hip Aip) as (c & t & -> & Hc).
    destruct (all_chars_head _ _ Hfp Afp) as (c' & t' & -> & Hc').
    assert (E1 : JS.run JS.is_space
                   (ws +:+ String c t +:+ "." +:+ String c' t' +:+ "%" +:+ rest)
                 = Some (ws, String c t +:+ "." +:+ String c' t' +:+ "%" +:+ rest))
      by (apply (run_stop JS.is_space ws c); auto using digit_not_space).
    assert (E2 : JS.run JS.is_digit (String c t +:+ "." +:+ String c' t' +:+ "%" +:+ rest)
                 = Some (String c t, "." +:+ String c' t' +:+ "%" +:+ rest))
      by now apply (run_stop JS.is_digit (String c t) ".").
    assert (E4 : JS.run JS.is_digit (String c' t' +:+ "%" +:+ rest)
                 = Some (String c' t', "%" +:+ rest))
      by now apply (run_stop JS.is_digit (String c' t') "%").
    rewrite strip_prefix_app. cbn [mbind option_bind].
    rewrite E1. cbn [mbind option_bind].
    rewrite E2. cbn [mbind option_bind].
    rewrite strip_prefix_app. cbn [mbind option_bind].
    rewrite E4. cbn [mbind option_bind].
    rewrite strip_prefix_app. reflexivity.
Qed.

Lemma progress_match_unfold s :
  JS.progress_match s =
  match JS.progress_match_here s with
  | Some p => Some p
  | None =>
      match s with
      | EmptyString => None
      | String _ rest => JS.progress_match rest
      end
  end.
Proof. destruct s; reflexivity. Qed.

(** [match] answers [null] exactly when the pattern matches nowhere in
    the text, and a capture it answers comes from a match in the text. *)
Lemma progress_match_None s :
  JS.progress_match s = None <->
  forall pre rest captured, s = pre +:+ rest -> ~ JS.pattern_matches_at rest captured.
Proof.
  induction s as [|c s IH].
  - split; [| reflexivity].
    intros _ pre rest captured Hs (ws & ip & fp & r & -> & _).
    destruct pre; discriminate Hs.
  - rewrite progress_match_unfold. split.
    + destruct (JS.progress_match_here (String c s)) as [p'|] eqn:Ehere; [discriminate |].
      intros Htail pre rest captured Hs Hmatch.
      destruct pre as [|b pre].
      * simpl in Hs. subst rest.
        apply progress_match_here_correct in Hmatch. congruence.
      * injection Hs as <- ->. now apply (proj1 IH Htail pre rest captured).
    + intros Hnone.
      destruct (JS.progress_match_here (String c s)) as [p'|] eqn:Ehere.
      * exfalso. apply (Hnone EmptyString (String c s) p'); [reflexivity |].
        now apply progress_match_here_correct.
      * apply IH. intros pre rest captured ->.
        now apply (Hnone (String c pre) rest captured).
Qed.

Lemma progress_match_Some s captured :
  JS.progress_match s = Some captured ->
  exists pre rest, s = pre +:+ rest /\ JS.pattern_matches_at rest captured.
Proof.
  induction s as [|c s IH]; rewrite progress_match_unfold.
  - destruct (JS.progress_match_here EmptyString) eqn:E; [| discriminate].
    intros [= ->]. exists EmptyString, EmptyString.
    split; [reflexivity | now apply progress_match_here_correct].
  - destruct (JS.progress_match_here (String c s)) as [p'|] eqn:E.
    + intros [= ->]. exists EmptyString, (String c s).
      split; [reflexivity | now apply progress_match_here_correct].
    + intros (pre & rest & -> & Hmatch)%IH. now exists (String c pre), rest.
Qed.

(** The leftmost match: a text [pre] free of the marker, then a match. *)
Lemma progress_match_leftmost pre rest captured :
  JS.includes pre "[download]" = false ->
  JS.progress_match_here ("[download]" +:+ rest) = Some captured ->
  JS.progress_match (pre +:+ "[download]" +:+ rest) = Some captured.
Proof.
  intros Hpre Hhere. induction pre as [|c pre IH].
  - change (EmptyString +:+ "[download]" +:+ rest) with ("[download]" +:+ rest).
    now rewrite progress_match_unfold, Hhere.
  - simpl JS.includes in Hpre. apply orb_false_iff in Hpre as [H1 H2].
    rewrite progress_match_unfold.
    rewrite progress_match_here_marker by now apply marker_no_straddle.
    change (String c pre +:+ "[download]" +:+ rest)
      with (String c (pre +:+ "[download]" +:+ rest)).
    now apply IH.
Qed.

End StringFacts.

(** ** Classification and broadcast *)

Section ClassifierFacts.

Import Classifier.

Lemma broadcast_delivered msg cs : Ws.delivered msg cs (Ws.broadcast msg cs).
Proof.
  unfold Ws.delivered, Ws.broadcast.
  induction cs as [|c cs IH]; simpl; constructor; [| exact IH].
  destruct (Z.eqb_spec (Ws.readyState c) 1) as [E | E]; simpl; repeat split; tauto.
Qed.

Lemma earlier_marker_false output :
  earlier_marker output = false ->
  JS.includes output "Extracting URL" = false /\
  JS.includes output "Downloading webpage" = false /\
  JS.includes output "Downloading android" = false /\
  JS.includes output "player API" = false /\
  JS.includes output "Downloading m3u8" = false /\
  JS.includes output "information" = false.
Proof.
  unfold earlier_marker. rewrite !orb_false_iff. tauto.
Qed.

(** The chain reaches the downloading branch exactly when no earlier
    test fires, and there the locals are these. *)
Lemma classify_downloading output :
  earlier_marker output = false ->
  JS.includes output "[download]" = true ->
  JS.includes output "%" = true ->
  classify output =
    {| phase := "downloading"; color := "#00ff00"; stepNumber := 5;
       totalSteps := 5; message := "0/5 Preparing...";
       progressMatch := JS.progress_match output |}.
Proof.
  intros (H1 & H2 & H3 & H4 & H5 & H6)%earlier_marker_false Hd Hp.
  unfold classify. rewrite H1, H2, H3, H4, H5, H6, Hd, Hp. reflexivity.
Qed.

(** An earlier test that fires keeps the chain from the downloading
    branch, whatever else the text holds. *)
Lemma classify_earlier output :
  earlier_marker output = true ->
  phase (classify output) <> "downloading" /\ progressMatch (classify output) = None.
Proof.
  unfold earlier_marker, classify. intros H.
  destruct (JS.includes output "Extracting URL"); [split; [discriminate | reflexivity] |].
  destruct (JS.includes output "Downloading webpage"); [split; [discriminate | reflexivity] |].
  destruct (JS.includes output "Downloading android" || JS.includes output "player API");
    [split; [discriminate | reflexivity] |].
  destruct (JS.includes output "Downloading m3u8" || JS.includes output "information");
    [split; [discriminate | reflexivity] |].
  discriminate H.
Qed.

End ClassifierFacts.

(** ** The [stderr] callbacks *)

Section StderrFacts.

Import Classifier.

(** What [pre +:+ "[download]  42.5%" +:+ post] makes of the pattern
    when [pre] is free of the marker. *)
Lemma progress_match_42_5 pre post :
  JS.includes pre "[download]" = false ->
  JS.progress_match (pre +:+ "[download]  42.5%" +:+ post) = Some "42.5".
Proof.
  intros Hpre.
  change (pre +:+ "[download]  42.5%" +:+ post)
    with (pre +:+ "[download]" +:+ ("  42.5%" +:+ post)).
  apply progress_match_leftmost; [exact Hpre | reflexivity].
Qed.

(** The leftmost figure of a text is the one [match] reports. *)
Lemma earlier_figure_wins :
  JS.progress_match "[download]  10.0% of 3.00MiB [download]  42.5% of 3.00MiB"
  = Some "10.0".
Proof. reflexivity. Qed.

(** A match at a position before which the pattern matches nowhere is
    the one [match] reports. *)
Lemma progress_match_no_earlier pre : forall rest captured,
  JS.progress_match_here rest = Some captured ->
  (forall pre1 rest1 captured1,
     pre +:+ rest = pre1 +:+ rest1 ->
     (String.length pre1 < String.length pre)%nat ->
     ~ JS.pattern_matches_at rest1 captured1) ->
  JS.progress_match (pre +:+ rest) = Some captured.
Proof.
  induction pre as [|c pre IH]; intros rest captured Hhere Hnone.
  - change (EmptyString +:+ rest) with rest.
    now rewrite progress_match_unfold, Hhere.
  - rewrite progress_match_unfold.
    destruct (JS.progress_match_here (String c pre +:+ rest)) as [p'|] eqn:E.
    + exfalso. apply (Hnone EmptyString (String c pre +:+ rest) p');
        [reflexivity | simpl; lia | now apply progress_match_here_correct].
    + change (String c pre +:+ rest) with (String c (pre +:+ rest)).
      apply IH; [exact Hhere |].
      intros pre1 rest1 c1 Hsplit Hlt.
      apply (Hnone (String c pre1) rest1 c1).
      * change (String c pre1 +:+ rest1) with (String c (pre1 +:+ rest1)).
        now rewrite <- Hsplit.
      * simpl. lia.
Qed.

(** The check position by position decides that there is no earlier
    match. *)
Lemma matches_nowhere_before_sound n : forall s,
  JS.matches_nowhere_before n s = true ->
  forall pre1 rest1 captured1,
    s = pre1 +:+ rest1 -> (String.length pre1 < n)%nat ->
    ~ JS.pattern_matches_at rest1 captured1.
Proof.
  induction n as [|n IH]; intros s Hcheck pre1 rest1 c1 Hs Hlt Hmatch; [lia |].
  simpl in Hcheck.
  destruct (JS.progress_match_here s) as [p'|] eqn:Ehere; [discriminate |].
  destruct pre1 as [|b pre1].
  - change (EmptyString +:+ rest1) with rest1 in Hs. subst rest1.
    apply progress_match_here_correct in Hmatch. congruence.
  - change (String b pre1 +:+ rest1) with (String b (pre1 +:+ rest1)) in Hs.
    subst s. simpl in Hlt.
    apply (IH _ Hcheck pre1 rest1 c1); [reflexivity | lia | exact Hmatch].
Qed.

(** A prefix free of the marker has no match of the pattern in it, nor
    one that runs over into the figure. *)
Lemma no_marker_no_earlier_match pre rest :
  JS.includes pre "[download]" = false ->
  forall pre1 rest1 captured1,
    pre +:+ "[download]" +:+ rest = pre1 +:+ rest1 ->
    (String.length pre1 < String.length pre)%nat ->
    ~ JS.pattern_matches_at rest1 captured1.
Proof.
  induction pre as [|c pre IH]; intros Hpre pre1 rest1 c1 Hsplit Hlt Hmatch;
    [simpl in Hlt; lia |].
  simpl JS.includes in Hpre. apply orb_false_iff in Hpre as [H1 H2].
  destruct pre1 as [|b pre1].
  - change (EmptyString +:+ rest1) with rest1 in Hsplit. subst rest1.
    apply progress_match_here_correct in Hmatch.
    rewrite progress_match_here_marker in Hmatch; [discriminate |].
    now apply marker_no_straddle.
  - change (String c pre +:+ "[download]" +:+ rest)
      with (String c (pre +:+ "[download]" +:+ rest)) in Hsplit.
    change (String b pre1 +:+ rest1) with (String b (pre1 +:+ rest1)) in Hsplit.
    injection Hsplit as _ Hsplit. simpl in Hlt.
    apply (IH H2 pre1 rest1 c1 Hsplit); [lia | exact Hmatch].
Qed.

Lemma clients_report_progress toFixed1 captured c w d :
  clients (Simple.report_progress toFixed1 captured c w d) =
  Ws.broadcast
    (Simple.progress_event (Simple.d_id d) (JS.parseFloat captured) c
       ("Downloading: " +:+ toFixed1 (JS.parseFloat captured) +:+ "%"))
    (clients w).
Proof.
  unfold Simple.report_progress. simpl.
  destruct (activeDownloads w !! Simple.d_id d); reflexivity.
Qed.

End StderrFacts.

(** C3 (amended): a diagnostic text that holds [[download]  42.5%], holds
    none of the markers the chain tests earlier and in which the pattern
    matches at no position before that figure is classified as phase
    [downloading], step 5 of 5, and a [progress] message carrying 42.5 (the
    fraction 85/2) goes to every open socket: in the retrying revision
    while the map has an entry for the video, in the simple revisions
    always.  A text without any [[download]] marker before the figure is
    such a text. *)
Theorem C3_progress_line_broadcasts_percentage
    (pre post : string) (w : World) (a : Retrying.Attempt) (entry : DownloadEntry) :
  let output := pre +:+ "[download]  42.5%" +:+ post in
  Classifier.earlier_marker output = false ->
  (forall pre1 rest1 captured1,
     output = pre1 +:+ rest1 ->
     (String.length pre1 < String.length pre)%nat ->
     ~ JS.pattern_matches_at rest1 captured1) ->
  activeDownloads w !! Retrying.a_id a = Some entry ->
  let c := Classifier.classify output in
  (Classifier.phase c = "downloading" /\
   Classifier.stepNumber c = 5%nat /\ Classifier.totalSteps c = 5%nat) /\
  (exists w' a',
     Retrying.on_stderr output w a = Some (w', a') /\
     let msg := Retrying.progress_event (Retrying.a_id a) "downloading" (85 # 2) in
     JS.get "type" msg = Some (JS.JStr "progress") /\
     JS.get "percent" msg = Some (JS.JNum (85 # 2)) /\
     Ws.delivered msg (clients w) (clients w')) /\
  (forall toFixed1 d,
     let msg :=
       Simple.progress_event (Simple.d_id d) (85 # 2) c
         ("Downloading: " +:+ toFixed1 (85 # 2) +:+ "%") in
     JS.get "type" msg = Some (JS.JStr "progress") /\
     JS.get "progress" msg = Some (JS.JNum (85 # 2)) /\
     Ws.delivered msg (clients w) (clients (Simple.on_stderr toFixed1 output w d)) /\
     Ws.delivered msg (clients w) (clients (SimpleLimited.on_stderr toFixed1 output w d))) /\
  (JS.includes pre "[download]" = false ->
   forall pre1 rest1 captured1,
     output = pre1 +:+ rest1 ->
     (String.length pre1 < String.length pre)%nat ->
     ~ JS.pattern_matches_at rest1 captured1).
Proof.
  intros output Hearlier Hfirst Hentry c.
  assert (Hinc : JS.includes output "[download]  42.5%" = true)
    by apply includes_intro.
  assert (Hmatch : JS.progress_match output = Some "42.5")
    by (apply progress_match_no_earlier; [reflexivity | exact Hfirst]).
  assert (Hc : Classifier.classify output =
               {| Classifier.phase := "downloading"; Classifier.color := "#00ff00";
                  Classifier.stepNumber := 5; Classifier.totalSteps := 5;
                  Classifier.message := "0/5 Preparing...";
                  Classifier.progressMatch := Some "42.5" |}).
  { rewrite classify_downloading.
    - now rewrite Hmatch.
    - exact Hearlier.
    - apply (includes_part output EmptyString "[download]" "  42.5%"), Hinc.
    - apply (includes_part output "[download]  42.5" "%" EmptyString), Hinc. }
  assert (Hvalue : JS.parseFloat "42.5" = (85 # 2)%Q) by reflexivity.
  subst c. split; [now rewrite Hc |]. split; [| split].
  - unfold Retrying.on_stderr. rewrite Hc.
    cbn [Classifier.progressMatch Classifier.phase Retrying.a_id].
    rewrite Hentry, Hvalue. eexists _, _. split; [reflexivity |].
    repeat split. apply broadcast_delivered.
  - intros toFixed1 d msg. subst msg. repeat split.
    + unfold Simple.on_stderr. rewrite Hc. simpl Classifier.progressMatch.
      cbv iota. rewrite clients_report_progress, Hvalue. apply broadcast_delivered.
    + unfold SimpleLimited.on_stderr. rewrite Hc. simpl Classifier.progressMatch.
      cbv iota. rewrite clients_report_progress, Hvalue. apply broadcast_delivered.
  - intros Hpre.
    apply (no_marker_no_earlier_match pre ("  42.5%" +:+ post) Hpre).
Qed.

(** A chunk of two lines of the tool, the first with the marker but
    without a figure: the open socket receives 42.5, the closing one
    nothing. *)
Lemma C3_witness :
  let output :=
    ("[download] Destination: -" +:+ String "010" EmptyString)
    +:+ "[download]  42.5%" +:+ " of 3.00MiB at 1.00MiB/s ETA 00:02" in
  Classifier.stepNumber (Classifier.classify output) = 5%nat /\
  exists w' a',
    Retrying.on_stderr output Sample.world Sample.attempt1 = Some (w', a') /\
    Ws.delivered
      (Retrying.progress_event "dQw4w9WgXcQ" "downloading" (85 # 2))
      Sample.sockets (clients w').
Proof.
  intros output.
  destruct (C3_progress_line_broadcasts_percentage
              ("[download] Destination: -" +:+ String "010" EmptyString)
              " of 3.00MiB at 1.00MiB/s ETA 00:02"
              Sample.world Sample.attempt1
              {| process := 0%nat; progress := 0; attempt := Some 1%nat |}
              eq_refl
              (matches_nowhere_before_sound 26 output eq_refl)
              eq_refl)
    as ((_ & Hstep & _) & (w' & a' & Hrun & _ & _ & Hsent) & _).
  split; [exact Hstep |]. exists w', a'. split; [exact Hrun | exact Hsent].
Defined.

(** C3, as stated, fails: a text that also holds an earlier marker is
    classified by that marker, here as [extracting], step 1, and the
    sockets get a [phase] message without any percentage. *)
Lemma C3_counterexample :
  ~ (forall output w a entry,
       JS.includes output "[download]  42.5%" = true ->
       activeDownloads w !! Retrying.a_id a = Some entry ->
       Classifier.phase (Classifier.classify output) = "downloading" /\
       Classifier.stepNumber (Classifier.classify output) = 5%nat /\
       exists w' a',
         Retrying.on_stderr output w a = Some (w', a') /\
         Ws.delivered
           (Retrying.progress_event (Retrying.a_id a) "downloading" (85 # 2))
           (clients w) (clients w')).
Proof.
  intros H.
  destruct (H "[youtube] Extracting URL: [download]  42.5%"
              Sample.world Sample.attempt1
              {| process := 0%nat; progress := 0; attempt := Some 1%nat |}
              eq_refl eq_refl) as (Hphase & _).
  vm_compute in Hphase. discriminate Hphase.
Qed.

(** ** Percentages without a decimal point *)

Section IntegerPercentage.

Local Arguments String.append !_ _ / : simpl nomatch.
Local Arguments Ascii.eqb : simpl never.

Lemma digit_not_bracket c : JS.is_digit c = true -> JS.not_bracket c = true.
Proof.
  unfold JS.is_digit, JS.not_bracket. intros H.
  destruct (Ascii.eqb_spec "[" c) as [<- | _]; [discriminate H | reflexivity].
Qed.

Lemma space_not_bracket c : JS.is_space c = true -> JS.not_bracket c = true.
Proof.
  unfold JS.is_space, JS.not_bracket. intros H.
  destruct (Ascii.eqb_spec "[" c) as [<- | _]; [discriminate H | reflexivity].
Qed.

Lemma all_chars_impl (p q : ascii -> bool) s :
  (forall c, p c = true -> q c = true) ->
  JS.all_chars p s = true -> JS.all_chars q s = true.
Proof.
  intros Hpq. induction s as [|c s IH]; simpl; [reflexivity |].
  intros [Hc Hs]%andb_true_iff. now rewrite (Hpq c Hc), IH.
Qed.

Lemma take_while_all p x y :
  JS.all_chars p x = true -> JS.take_while p (x +:+ y) = x +:+ JS.take_while p y.
Proof.
  induction x as [|c x IH]; simpl; [reflexivity |].
  intros [Hc Hx]%andb_true_iff. now rewrite Hc, IH.
Qed.

Lemma drop_while_all p x y :
  JS.all_chars p x = true -> JS.drop_while p (x +:+ y) = JS.drop_while p y.
Proof.
  induction x as [|c x IH]; simpl; [reflexivity |].
  intros [Hc Hx]%andb_true_iff. now rewrite Hc, IH.
Qed.

(** A text made of code units other than the opening bracket, put before
    a text free of the marker, is free of it too. *)
Lemma includes_no_bracket x rest :
  JS.all_chars JS.not_bracket x = true ->
  JS.includes rest "[download]" = false ->
  JS.includes (x +:+ rest) "[download]" = false.
Proof.
  intros Hx Hrest. induction x as [|c x IH]; [exact Hrest |].
  simpl in Hx. apply andb_true_iff in Hx as [Hc Hx].
  simpl. rewrite (IH Hx), orb_false_r.
  unfold JS.starts_with. simpl. unfold JS.not_bracket in Hc.
  now destruct (Ascii.eqb "[" c).
Qed.

(** After the marker and white space, digits that run into [%] without
    a decimal point: the pattern does not match there. *)
Lemma progress_match_here_integer ws ds rest :
  JS.all_chars JS.is_space ws = true ->
  JS.all_chars JS.is_digit ds = true ->
  JS.progress_match_here ("[download]" +:+ ws +:+ ds +:+ "%" +:+ rest) = None.
Proof.
  intros Hws Hds. unfold JS.progress_match_here.
  rewrite strip_prefix_app. cbn [mbind option_bind].
  assert (Hpercent : JS.run JS.is_digit ("%" +:+ rest) = None)
    by now apply run_none.
  destruct ws as [|b ws].
  - (* no white space after the marker *)
    destruct ds as [|c ds].
    + change (EmptyString +:+ EmptyString +:+ "%" +:+ rest) with (String "%" rest).
      now rewrite run_none.
    + simpl in Hds. apply andb_true_iff in Hds as [Hc _].
      change (EmptyString +:+ String c ds +:+ "%" +:+ rest)
        with (String c (ds +:+ "%" +:+ rest)).
      now rewrite run_none by now apply digit_not_space.
  - destruct ds as [|c ds].
    + assert (E1 : JS.run JS.is_space (String b ws +:+ EmptyString +:+ "%" +:+ rest)
                   = Some (String b ws, "%" +:+ rest))
        by (apply (run_stop JS.is_space (String b ws) "%" rest); auto; discriminate).
      rewrite E1. cbn [mbind option_bind]. now rewrite Hpercent.
    + assert (Hc : JS.is_digit c = true)
        by (simpl in Hds; now apply andb_true_iff in Hds as [Hc _]).
      assert (E1 : JS.run JS.is_space (String b ws +:+ String c ds +:+ "%" +:+ rest)
                   = Some (String b ws, String c ds +:+ "%" +:+ rest))
        by (apply (run_stop JS.is_space (String b ws) c (ds +:+ "%" +:+ rest));
            auto using digit_not_space; discriminate).
      assert (E2 : JS.run JS.is_digit (String c ds +:+ "%" +:+ rest)
                   = Some (String c ds, "%" +:+ rest))
        by (apply (run_stop JS.is_digit (String c ds) "%" rest); auto; discriminate).
      rewrite E1. cbn [mbind option_bind]. rewrite E2. reflexivity.
Qed.

Lemma progress_match_integer ws ds rest :
  JS.all_chars JS.is_space ws = true ->
  JS.all_chars JS.is_digit ds = true ->
  JS.includes rest "[download]" = false ->
  JS.progress_match ("[download]" +:+ ws +:+ ds +:+ "%" +:+ rest) = None.
Proof.
  intros Hws Hds Hrest.
  rewrite progress_match_unfold, progress_match_here_integer by assumption.
  change ("[download]" +:+ ws +:+ ds +:+ "%" +:+ rest)
    with (String "[" ("download]" +:+ ws +:+ ds +:+ "%" +:+ rest)).
  apply progress_match_no_marker.
  rewrite <- !append_assoc.
  apply includes_no_bracket; [| exact Hrest].
  rewrite !append_assoc.
  assert (Happ : forall x y, JS.all_chars JS.not_bracket x = true ->
                        JS.all_chars JS.not_bracket y = true ->
                        JS.all_chars JS.not_bracket (x +:+ y) = true).
  { intros x y Hx Hy. induction x as [|c x IH]; [exact Hy |].
    simpl in *. apply andb_true_iff in Hx as [-> Hx]. now apply IH. }
  apply (Happ "download]"); [reflexivity |].
  apply Happ; [exact (all_chars_impl _ _ _ space_not_bracket Hws) |].
  apply Happ; [exact (all_chars_impl _ _ _ digit_not_bracket Hds) | reflexivity].
Qed.

End IntegerPercentage.

(** C10 (amended): a diagnostic text that reaches the downloading branch
    (it holds [[download]] and [%] and no earlier marker) but on which the
    pattern fails makes the callback broadcast no [progress] message: every open
    socket gets one [phase] message with phase [downloading] and neither a
    [percent] nor a [progress] field (the rate-limited simple revision may
    add its bot-detection [error] message).  A figure without a decimal
    point, as in [[download]  42%], is such a text. *)
Theorem C10_integer_percentage_yields_phase_event :
  (forall output w a,
     Classifier.earlier_marker output = false ->
     JS.includes output "[download]" = true ->
     JS.includes output "%" = true ->
     JS.progress_match output = None ->
     let c := Classifier.classify output in
     let msg :=
       Classifier.phase_event (Retrying.a_id a) c
         ("Attempt " +:+ JS.show_nat (Retrying.a_attempt a) +:+ ": 0/5 Preparing...") in
     Classifier.phase c = "downloading" /\
     (exists a', Retrying.on_stderr output w a = Some (broadcast msg w, a')) /\
     Ws.delivered msg (clients w) (Ws.broadcast msg (clients w)) /\
     JS.get "type" msg = Some (JS.JStr "phase") /\
     JS.get "phase" msg = Some (JS.JStr "downloading") /\
     JS.get "percent" msg = None /\ JS.get "progress" msg = None /\
     forall toFixed1 d,
       let msg' := Classifier.phase_event (Simple.d_id d) c "0/5 Preparing..." in
       JS.get "phase" msg' = Some (JS.JStr "downloading") /\
       JS.get "percent" msg' = None /\ JS.get "progress" msg' = None /\
       Simple.on_stderr toFixed1 output w d = broadcast msg' w /\
       SimpleLimited.on_stderr toFixed1 output w d =
         if JS.includes output "Sign in to confirm you're not a bot"
            || JS.includes output "cookies"
         then broadcast (SimpleLimited.bot_detection_event (Simple.d_id d))
                (broadcast msg' w)
         else broadcast msg' w) /\
  (forall ws ds rest,
     JS.all_chars JS.is_space ws = true ->
     JS.all_chars JS.is_digit ds = true ->
     JS.includes rest "[download]" = false ->
     let output := "[download]" +:+ ws +:+ ds +:+ "%" +:+ rest in
     JS.includes output "[download]" = true /\
     JS.includes output "%" = true /\
     JS.progress_match output = None).
Proof.
  split.
  - intros output w a Hearlier Hd Hp Hnone c msg.
    assert (Hc : Classifier.classify output =
                 {| Classifier.phase := "downloading"; Classifier.color := "#00ff00";
                    Classifier.stepNumber := 5; Classifier.totalSteps := 5;
                    Classifier.message := "0/5 Preparing...";
                    Classifier.progressMatch := None |})
      by now rewrite classify_downloading, Hnone.
    subst msg c. rewrite Hc. cbn [Classifier.phase].
    split; [reflexivity |]. split.
    { unfold Retrying.on_stderr. rewrite Hc.
      cbn [Classifier.progressMatch Classifier.message Retrying.a_id Retrying.a_attempt].
      eexists. reflexivity. }
    split; [apply broadcast_delivered |].
    do 4 (split; [reflexivity |]).
    intros toFixed1 d.
    do 3 (split; [reflexivity |]).
    unfold Simple.on_stderr, SimpleLimited.on_stderr. rewrite Hc.
    split; reflexivity.
  - intros ws ds rest Hws Hds Hrest output. subst output. split; [| split].
    + apply (includes_intro EmptyString "[download]").
    + replace ("[download]" +:+ ws +:+ ds +:+ "%" +:+ rest)
        with (("[download]" +:+ ws +:+ ds) +:+ "%" +:+ rest)
        by now rewrite !append_assoc.
      apply includes_intro.
    + now apply progress_match_integer.
Qed.

(** The line [[download]  42%] in the sample world. *)
Lemma C10_witness :
  exists a',
    Retrying.on_stderr "[download]  42%" Sample.world Sample.attempt1 =
    Some (broadcast
            (JS.JObj [("type", JS.JStr "phase"); ("id", JS.JStr "dQw4w9WgXcQ");
                      ("phase", JS.JStr "downloading"); ("color", JS.JStr "#00ff00");
                      ("message", JS.JStr "Attempt 1: 0/5 Preparing...")])
            Sample.world, a').
Proof.
  destruct C10_integer_percentage_yields_phase_event as [Hgeneral Hfamily].
  destruct (Hfamily "  " "42" EmptyString eq_refl eq_refl eq_refl) as (Hd & Hp & Hnone).
  destruct (Hgeneral "[download]  42%" Sample.world Sample.attempt1
              eq_refl Hd Hp Hnone) as (_ & Hrun & _).
  exact Hrun.
Defined.

(** C10, as stated, fails: a line whose percentage has no decimal point
    and that goes on with one of the markers the chain tests earlier never
    comes to the downloading branch.  [[download]  42% of 3.00MiB,
    information] is classified [info], step 4. *)
Lemma C10_counterexample :
  ~ (forall ws ds rest w a,
       JS.all_chars JS.is_space ws = true ->
       JS.all_chars JS.is_digit ds = true ->
       JS.includes rest "[download]" = false ->
       let output := "[download]" +:+ ws +:+ ds +:+ "%" +:+ rest in
       let c := Classifier.classify output in
       Classifier.phase c = "downloading" /\
       exists w' a',
         Retrying.on_stderr output w a = Some (w', a') /\
         Ws.delivered
           (Classifier.phase_event (Retrying.a_id a) c
              ("Attempt " +:+ JS.show_nat (Retrying.a_attempt a)
               +:+ ": 0/5 Preparing..."))
           (clients w) (clients w')).
Proof.
  intros H.
  destruct (H "  " "42" " of 3.00MiB, information" Sample.world Sample.attempt1
              eq_refl eq_refl eq_refl) as (Hphase & _).
  vm_compute in Hphase. discriminate Hphase.
Qed.

(** ** The retry loop of [tryDownloadWithFallbacks] *)

Section RetryFacts.

Import Retrying.

Lemma on_close_failed code w a :
  succeeded code a = false ->
  (on_close code w a).2 =
    if should_retry code a then RetryAfter 2000 (a_attempt a + 1) else Rejected.
Proof.
  intros Hfail. unfold on_close. rewrite Hfail.
  destruct (should_retry code a); reflexivity.
Qed.

Lemma tryDownloadWithFallbacks_spawned cookiesPath id r n w :
  spawned (tryDownloadWithFallbacks cookiesPath id r n w).1 =
  spawned w ++ [args cookiesPath id n].
Proof.
  unfold tryDownloadWithFallbacks. simpl.
  destruct (Http.setHeader "Content-Type" "audio/webm" r ≫= _); reflexivity.
Qed.

(** An attempt that starts on a response whose headers are sent puts its
    entry in the map and then fails in [res.setHeader]: no callback is
    registered for its subprocess. *)
Lemma tryDownloadWithFallbacks_headers_sent cookiesPath id r n w :
  Http.headersSent r = true ->
  (tryDownloadWithFallbacks cookiesPath id r n w).2 = None /\
  activeDownloads (tryDownloadWithFallbacks cookiesPath id r n w).1 !! id
  = Some {| process := length (spawned w); progress := 0; attempt := Some n |}.
Proof.
  intros Hsent. unfold tryDownloadWithFallbacks, Http.setHeader. simpl.
  rewrite Hsent. simpl. split; [reflexivity | apply lookup_insert_eq].
Qed.

(** The strategy of an attempt is what its argument list passes. *)
Lemma args_strategy cookiesPath id n :
  exists before between1 between2 rest,
    args cookiesPath id n =
      before ++ ["-f"; format (strategy n)] ++ between1
      ++ ["--extractor-args"; player_client (strategy n)] ++ between2
      ++ ["--user-agent"; user_agent (strategy n)] ++ rest.
Proof.
  exists ["--cookies"; cookiesPath], ["--no-warnings"; "--progress"; "--newline"], [].
  destruct n as [|[|[|n]]]; eexists; reflexivity.
Qed.

End RetryFacts.

(** C2 (amended): in the retrying revision a close that is not a success
    (anything but exit code 0 with data on stdout, so also exit code 0
    without data) is retried, below attempt 3, exactly when the stderr text
    holds [Sign in to confirm] or [bot], or the exit code is 1; every other
    such close, and every one from attempt 3 on, is terminal.  A retry is
    scheduled 2000 ms later with the next attempt number, each attempt
    spawns the argument list of its own number, and the strategies of
    attempts 1, 2 and 3 differ pairwise in player client and in user
    agent. *)
Theorem C2_retry_on_marker_or_exit_code_one :
  (forall code w a,
     (Retrying.a_attempt a < 3)%nat ->
     Retrying.succeeded code a = false ->
     (Retrying.on_close code w a).2 =
       if JS.includes (Retrying.errorOutput a) "Sign in to confirm"
          || JS.includes (Retrying.errorOutput a) "bot"
          || bool_decide (code = Some 1)
       then Retrying.RetryAfter 2000 (Retrying.a_attempt a + 1)
       else Retrying.Rejected) /\
  (forall code w a,
     (3 <= Retrying.a_attempt a)%nat ->
     Retrying.succeeded code a = false ->
     (Retrying.on_close code w a).2 = Retrying.Rejected) /\
  (forall cookiesPath id r n w,
     spawned (Retrying.tryDownloadWithFallbacks cookiesPath id r n w).1 =
     spawned w ++ [Retrying.args cookiesPath id n]) /\
  (forall i j, (1 <= i <= 3)%nat -> (1 <= j <= 3)%nat -> i <> j ->
     Retrying.player_client (Retrying.strategy i)
       <> Retrying.player_client (Retrying.strategy j) /\
     Retrying.user_agent (Retrying.strategy i)
       <> Retrying.user_agent (Retrying.strategy j)).
Proof.
  split; [| split; [| split]].
  - intros code w a Hlt Hfail. rewrite on_close_failed by exact Hfail.
    unfold Retrying.should_retry, Retrying.maxAttempts.
    now rewrite bool_decide_eq_true_2 by exact Hlt.
  - intros code w a Hge Hfail. rewrite on_close_failed by exact Hfail.
    unfold Retrying.should_retry, Retrying.maxAttempts.
    now rewrite bool_decide_eq_false_2 by lia.
  - apply tryDownloadWithFallbacks_spawned.
  - intros i j Hi Hj Hij.
    assert (Ei : (i = 1 \/ i = 2 \/ i = 3)%nat) by lia.
    assert (Ej : (j = 1 \/ j = 2 \/ j = 3)%nat) by lia.
    destruct Ei as [-> | [-> | ->]], Ej as [-> | [-> | ->]];
      try (exfalso; apply Hij; reflexivity); split; discriminate.
Qed.

(** A first attempt that ends with exit code 1 is retried after two
    seconds as attempt 2; a third one is not retried. *)
Lemma C2_witness :
  (Retrying.on_close (Some 1) Sample.world Sample.attempt1).2
    = Retrying.RetryAfter 2000 2 /\
  (Retrying.on_close (Some 1) Sample.world
     {| Retrying.a_id := "dQw4w9WgXcQ"; Retrying.a_attempt := 3;
        Retrying.res := Http.fresh; Retrying.hasData := false;
        Retrying.errorOutput := "ERROR: Sign in to confirm you're not a bot" |}).2
    = Retrying.Rejected /\
  Retrying.user_agent (Retrying.strategy 1) <> Retrying.user_agent (Retrying.strategy 2).
Proof.
  destruct C2_retry_on_marker_or_exit_code_one as (Hretry & Hlast & _ & Hdistinct).
  split; [| split].
  - apply (Hretry (Some 1) Sample.world Sample.attempt1); [simpl; lia | reflexivity].
  - apply Hlast; [simpl; lia | reflexivity].
  - apply (Hdistinct 1%nat 2%nat); lia.
Defined.

(** C2, as stated, fails: exit code 0 without any data on stdout is a
    failed close too, and with a marker in the stderr text it is retried
    although the exit code is neither non-zero nor 1. *)
Lemma C2_counterexample :
  ~ (forall code w a,
       (Retrying.a_attempt a < 3)%nat ->
       Retrying.succeeded code a = false ->
       ((exists delay next, (Retrying.on_close code w a).2 = Retrying.RetryAfter delay next)
        <-> Retrying.retry_condition_as_specified code (Retrying.errorOutput a))).
Proof.
  intros H.
  pose (a := {| Retrying.a_id := "dQw4w9WgXcQ"; Retrying.a_attempt := 1;
                Retrying.res := Http.fresh; Retrying.hasData := false;
                Retrying.errorOutput := "ERROR: Sign in to confirm you're not a bot" |}).
  destruct (H (Some 0) Sample.world a) as [Hcode _]; [simpl; lia | reflexivity |].
  destruct Hcode as [[Hnonzero _] | Hone].
  - exists 2000, 2%nat. reflexivity.
  - apply Hnonzero. reflexivity.
  - discriminate Hone.
Qed.

(** ** The response body *)

Section ResponseFacts.

(** The retrying revision writes a chunk only while the headers are not
    sent, and the first write sends them: the response keeps what it had
    plus the first chunk. *)
Lemma retrying_stdout_after_headers chunks a :
  Http.headersSent (Retrying.res a) = true ->
  Retrying.res (fold_left (fun a data => Retrying.on_stdout data a) chunks a)
  = Retrying.res a.
Proof.
  revert a. induction chunks as [|data chunks IH]; intros a Hsent; [reflexivity |].
  simpl fold_left. rewrite IH.
  - unfold Retrying.on_stdout. simpl. now rewrite Hsent.
  - unfold Retrying.on_stdout. simpl. now rewrite Hsent.
Qed.

Lemma retrying_stdout_first_chunk_only first chunks a :
  Http.headersSent (Retrying.res a) = false ->
  Http.finished (Retrying.res a) = false ->
  Http.body (Retrying.res
               (fold_left (fun a data => Retrying.on_stdout data a) (first :: chunks) a))
  = Http.body (Retrying.res a) ++ [Http.Bytes first].
Proof.
  intros Hsent Hopen. simpl fold_left.
  rewrite retrying_stdout_after_headers.
  - unfold Retrying.on_stdout, Http.write. simpl. now rewrite Hsent, Hopen.
  - unfold Retrying.on_stdout, Http.write. simpl. now rewrite Hsent, Hopen.
Qed.

Lemma retrying_stdout_hasData first chunks a :
  Retrying.hasData
    (fold_left (fun a data => Retrying.on_stdout data a) (first :: chunks) a) = true /\
  Http.headersSent
    (Retrying.res
       (fold_left (fun a data => Retrying.on_stdout data a) (first :: chunks) a)) = true \/
  Http.finished (Retrying.res a) = true.
Proof.
  destruct (Http.finished (Retrying.res a)) eqn:Hopen; [now right | left].
  assert (Hone : forall a, Retrying.hasData a = true ->
                      Http.headersSent (Retrying.res a) = true ->
                      forall data, Retrying.hasData (Retrying.on_stdout data a) = true /\
                              Http.headersSent (Retrying.res (Retrying.on_stdout data a)) = true).
  { intros b Hb Hs data. unfold Retrying.on_stdout. simpl. rewrite Hs. simpl. auto. }
  assert (Hall : forall chunks a, Retrying.hasData a = true ->
                      Http.headersSent (Retrying.res a) = true ->
                      Retrying.hasData (fold_left (fun a data => Retrying.on_stdout data a) chunks a) = true /\
                      Http.headersSent (Retrying.res (fold_left (fun a data => Retrying.on_stdout data a) chunks a)) = true).
  { intros l. induction l as [|d l IH]; intros b Hb Hs; [auto |].
    simpl. destruct (Hone b Hb Hs d). now apply IH. }
  simpl fold_left. apply Hall.
  - unfold Retrying.on_stdout. simpl. now destruct (Http.headersSent (Retrying.res a)).
  - unfold Retrying.on_stdout, Http.write. simpl.
    destruct (Http.headersSent (Retrying.res a)) eqn:Hs; simpl; [exact Hs |].
    now rewrite Hopen.
Qed.

(** Chunks on stdout neither end the response nor touch its status. *)
Lemma retrying_stdout_keeps_open chunks a :
  Http.finished (Retrying.res a) = false ->
  Http.statusCode
    (Retrying.res (fold_left (fun a data => Retrying.on_stdout data a) chunks a))
  = Http.statusCode (Retrying.res a) /\
  Http.finished
    (Retrying.res (fold_left (fun a data => Retrying.on_stdout data a) chunks a))
  = false.
Proof.
  revert a. induction chunks as [|data chunks IH]; intros a Hopen; [auto |].
  simpl fold_left.
  assert (Hstep : Http.statusCode (Retrying.res (Retrying.on_stdout data a))
                  = Http.statusCode (Retrying.res a) /\
                  Http.finished (Retrying.res (Retrying.on_stdout data a)) = false).
  { unfold Retrying.on_stdout, Http.write. simpl.
    destruct (Http.headersSent (Retrying.res a)); simpl; [auto |].
    rewrite Hopen. auto. }
  destruct Hstep as [Hs Hf]. destruct (IH _ Hf) as [-> ->]. auto.
Qed.

(** A successful close of the retrying revision after data: the
    [complete] message goes out and the promise resolves, but the guard
    [!res.headersSent] skips [res.end()]. *)
Lemma retrying_success_leaves_response_open w a :
  Retrying.hasData a = true ->
  Http.headersSent (Retrying.res a) = true ->
  Retrying.on_close (Some 0) w a =
    (broadcast (Retrying.complete_event (Retrying.a_id a) (Retrying.a_attempt a))
       (set_activeDownloads (delete (Retrying.a_id a)) w),
     a, Retrying.Resolved).
Proof.
  intros Hdata Hsent. unfold Retrying.on_close, Retrying.succeeded.
  rewrite Hdata, Hsent. reflexivity.
Qed.

(** The simple revisions pipe: every chunk reaches the body, in order,
    and the end of stdout ends the response. *)
Lemma simple_pipe_forwards_all chunks d :
  Http.finished (Simple.res d) = false ->
  let d' := Simple.on_stdout_end
              (fold_left (fun d data => Simple.on_stdout data d) chunks d) in
  Http.body (Simple.res d') = Http.body (Simple.res d) ++ map Http.Bytes chunks /\
  Http.finished (Simple.res d') = true /\
  Http.statusCode (Simple.res d') = Http.statusCode (Simple.res d).
Proof.
  intros Hopen. simpl.
  revert d Hopen. induction chunks as [|data chunks IH]; intros d Hopen.
  - simpl. split; [symmetry; apply app_nil_r | split; reflexivity].
  - simpl fold_left.
    destruct (IH (Simple.on_stdout data d)) as (Hb & _ & Hs).
    + unfold Simple.on_stdout, Http.write. simpl. now rewrite Hopen.
    + rewrite Hb, Hs. unfold Simple.on_stdout, Http.write. simpl.
      rewrite Hopen. simpl. now rewrite <- app_assoc.
Qed.

Lemma simple_success_completes code w d :
  code = Some 0 ->
  Simple.on_close code w d =
    (broadcast (Simple.complete_event (Simple.d_id d))
       (set_activeDownloads (delete (Simple.d_id d)) w), d) /\
  SimpleLimited.on_close code w d =
    (broadcast (Simple.complete_event (Simple.d_id d))
       (set_activeDownloads (delete (Simple.d_id d)) w), d).
Proof. intros ->. split; reflexivity. Qed.

End ResponseFacts.

(** C4, on the retrying revision: after at least one chunk on stdout,
    exit code 0 sends the [complete] message to every open socket,
    resolves the promise and leaves the status alone, but [res.end()] is
    skipped because the write of the first chunk has sent the headers: the
    response is never completed. *)
Theorem C4_retrying_success_leaves_response_unfinished
    (w : World) (a : Retrying.Attempt) (first : string) (chunks : list string) :
  Http.finished (Retrying.res a) = false ->
  let a' := fold_left (fun a data => Retrying.on_stdout data a) (first :: chunks) a in
  let result := Retrying.on_close (Some 0) w a' in
  result.2 = Retrying.Resolved /\
  Ws.delivered (Retrying.complete_event (Retrying.a_id a') (Retrying.a_attempt a'))
    (clients w) (clients result.1.1) /\
  Http.statusCode (Retrying.res result.1.2) = Http.statusCode (Retrying.res a) /\
  Http.finished (Retrying.res result.1.2) = false.
Proof.
  intros Hopen a' result.
  destruct (retrying_stdout_hasData first chunks a) as [[Hdata Hsent] | Hdone];
    [| congruence].
  fold a' in Hdata, Hsent.
  assert (Hrun : result =
            (broadcast (Retrying.complete_event (Retrying.a_id a') (Retrying.a_attempt a'))
               (set_activeDownloads (delete (Retrying.a_id a')) w),
             a', Retrying.Resolved))
    by now apply retrying_success_leaves_response_open.
  rewrite Hrun. cbn [fst snd].
  split; [reflexivity |]. split; [apply broadcast_delivered |].
  subst a'. destruct (retrying_stdout_keeps_open (first :: chunks) a Hopen) as [-> ->].
  split; reflexivity.
Qed.

(** One chunk, then exit code 0, in the sample world: the response is
    left open with the chunk in its body. *)
Lemma C4_witness :
  let result :=
    Retrying.on_close (Some 0) Sample.world
      (Retrying.on_stdout "OggS" Sample.attempt1) in
  result.2 = Retrying.Resolved /\
  Http.finished (Retrying.res result.1.2) = false.
Proof.
  destruct (C4_retrying_success_leaves_response_unfinished
              Sample.world Sample.attempt1 "OggS" [] eq_refl)
    as (Hresolved & _ & _ & Hopen).
  split; [exact Hresolved | exact Hopen].
Defined.

(** C5, on the retrying revision: of the chunks the subprocess writes to
    stdout only the first reaches the response body; every later one is
    dropped by the guard [!res.headersSent]. *)
Theorem C5_retrying_forwards_first_chunk_only
    (a : Retrying.Attempt) (first second : string) (chunks : list string) :
  Http.headersSent (Retrying.res a) = false ->
  Http.finished (Retrying.res a) = false ->
  Http.body
    (Retrying.res
       (fold_left (fun a data => Retrying.on_stdout data a)
          (first :: second :: chunks) a))
  = Http.body (Retrying.res a) ++ [Http.Bytes first].
Proof.
  intros Hsent Hopen.
  now rewrite retrying_stdout_first_chunk_only.
Qed.

(** Two chunks in the sample world: the body holds the first only. *)
Lemma C5_witness :
  Http.body
    (Retrying.res
       (fold_left (fun a data => Retrying.on_stdout data a)
          ["OggS"; "more audio"] Sample.attempt1))
  = [Http.Bytes "OggS"].
Proof.
  apply (C5_retrying_forwards_first_chunk_only Sample.attempt1 "OggS" "more audio" []);
    reflexivity.
Defined.

(** ** Search *)

(** C6: without a query, or with the empty one, [/search] answers the
    empty list and never calls the provider; otherwise it calls the
    provider once, with the query, a limit of 10 and the type [video]; when
    the provider fails the answer is status 500 with
    [{ error: "search_failed" }], and when it succeeds the projected list. *)
Theorem C6_search_relay
    (YouTube_search : string -> Search.Options -> option (list Search.Video))
    (req : Request) :
  (JS.truthy (query_q req) = false ->
   Search.search YouTube_search req =
     {| Search.provider_calls := [];
        Search.response := Http.json (JS.JArr []) Http.fresh |}) /\
  (forall q, query_q req = Some q -> q <> EmptyString ->
     let options := {| Search.limit := 10; Search.type := "video" |} in
     Search.provider_calls (Search.search YouTube_search req) = [(q, options)] /\
     (YouTube_search q options = None ->
      Http.statusCode (Search.response (Search.search YouTube_search req)) = 500 /\
      Http.body (Search.response (Search.search YouTube_search req))
        = [Http.Json (JS.JObj [("error", JS.JStr "search_failed")])]) /\
     (forall results, YouTube_search q options = Some results ->
        Search.response (Search.search YouTube_search req)
          = Http.json (JS.JArr (map Search.simplified results)) Http.fresh)).
Proof.
  split.
  - intros Hq. unfold Search.search. now rewrite Hq.
  - intros q Hq Hne options.
    assert (Htruthy : JS.truthy (query_q req) = true).
    { rewrite Hq. simpl. now destruct (String.eqb_spec q EmptyString). }
    unfold Search.search. rewrite Htruthy, Hq. simpl. fold options.
    destruct (YouTube_search q options) as [results|]; simpl.
    + split; [reflexivity |]. split; [discriminate |]. now intros ? [= <-].
    + split; [reflexivity |]. split; [auto | discriminate].
Qed.

(** A request without [q], and one whose provider call fails. *)
Lemma C6_witness :
  Search.provider_calls
    (Search.search (fun _ _ => None) Sample.request) = [] /\
  Http.statusCode
    (Search.response
       (Search.search (fun _ _ => None)
          {| query_q := Some "lofi"; query_id := None;
             ip := None; remoteAddress := None |})) = 500.
Proof.
  split.
  - rewrite (proj1 (C6_search_relay (fun _ _ => None) Sample.request) eq_refl).
    reflexivity.
  - destruct (proj2 (C6_search_relay (fun _ _ => None)
                       {| query_q := Some "lofi"; query_id := None;
                          ip := None; remoteAddress := None |})
                "lofi" eq_refl) as (_ & Hfail & _); [discriminate |].
    exact (proj1 (Hfail eq_refl)).
Defined.

(** ** The download handlers *)

(** C7: without an [id], or with the empty one, [/download] answers the
    text [video id required] and leaves the world as it was, so neither
    the extraction subprocess nor the metadata subprocess is spawned: in
    all three revisions. *)
Theorem C7_missing_id_spawns_nothing (req : Request) (w : World) :
  JS.truthy (query_id req) = false ->
  let prompt := Http.send "video id required" Http.fresh in
  Http.body prompt = [Http.Text "video id required"] /\
  (forall cookiesPath now,
     Retrying.download cookiesPath req now w =
       {| Retrying.world := w; Retrying.response := prompt; Retrying.running := None |} /\
     spawned (Retrying.world (Retrying.download cookiesPath req now w)) = spawned w) /\
  (Simple.download req w =
     {| Simple.world := w; Simple.response := prompt; Simple.running := None |} /\
   spawned (Simple.world (Simple.download req w)) = spawned w) /\
  (forall i j now,
     SimpleLimited.download i j req now w =
       {| Simple.world := w; Simple.response := prompt; Simple.running := None |} /\
     spawned (Simple.world (SimpleLimited.download i j req now w)) = spawned w).
Proof.
  intros Hid prompt. split; [reflexivity |].
  unfold Retrying.download, Simple.download, SimpleLimited.download.
  rewrite Hid. simpl. repeat split.
Qed.

(** The request without [id] against the sample world. *)
Lemma C7_witness :
  spawned (Simple.world (Simple.download Sample.request_without_id Sample.world))
  = spawned Sample.world.
Proof.
  destruct (C7_missing_id_spawns_nothing Sample.request_without_id Sample.world eq_refl)
    as (_ & _ & (_ & Hspawned) & _).
  exact Hspawned.
Defined.

(** ** The active-downloads map *)

Section ActiveDownloadsFacts.




Lemma simple_start_creates metadataArgs args id w :
  exists ytdlp,
    activeDownloads (Simple.world (Simple.start metadataArgs args id w)) !! id
    = Some {| process := ytdlp; progress := 0; attempt := None |}.
Proof.
  unfold Simple.start. eexists. simpl. apply lookup_insert_eq.
Qed.






End ActiveDownloadsFacts.




(** * Further properties *)

(** ** The rate limiter over runs of calls *)

Section RateLimiterRunFacts.

Import RateLimiter RateLimiterRuns.

Implicit Types (ip : option string) (m : gmap (option string) (list Z))
  (calls : list (option string * Z)).

(** Pruning for a later instant makes an earlier pruning redundant. *)
Lemma in_window_later now now' l :
  now <= now' -> in_window now' (in_window now l) = in_window now' l.
Proof.
  intros Hle. unfold in_window.
  induction l as [|t l IH]; [reflexivity |].
  destruct (decide (now - t < RATE_LIMIT_WINDOW)) as [Hin | Hout].
  - rewrite (filter_cons_True _ t l Hin).
    destruct (decide (now' - t < RATE_LIMIT_WINDOW)) as [Hin' | Hout'].
    + rewrite !filter_cons_True by exact Hin'. now rewrite IH.
    + rewrite !filter_cons_False by exact Hout'. exact IH.
  - rewrite (filter_cons_False _ t l Hout).
    rewrite filter_cons_False by lia. exact IH.
Qed.

Lemma in_window_app now l1 l2 :
  in_window now (l1 ++ l2) = in_window now l1 ++ in_window now l2.
Proof. apply filter_app. Qed.

(** A call for another address leaves the list of [ip] alone. *)
Lemma checkRateLimit_other ip ip' now m :
  ip' <> ip -> (checkRateLimit ip' now m).2 !! ip = m !! ip.
Proof.
  intros Hne. rewrite checkRateLimit_unfold. case_decide; simpl; [reflexivity |].
  now rewrite lookup_insert_ne.
Qed.

(** The verdict and the list stored for [ip] depend on the list of [ip]
    only. *)
Lemma checkRateLimit_local ip now m m' :
  m !! ip = m' !! ip ->
  (checkRateLimit ip now m).1 = (checkRateLimit ip now m').1 /\
  (checkRateLimit ip now m).2 !! ip = (checkRateLimit ip now m').2 !! ip.
Proof.
  intros Heq. rewrite !checkRateLimit_unfold, Heq.
  case_decide; simpl; [auto |]. now rewrite !lookup_insert_eq.
Qed.

Lemma spaced_snoc acc now :
  spaced acc -> (length (in_window now acc) < RATE_LIMIT_MAX)%nat ->
  spaced (acc ++ [now]).
Proof.
  intros Hacc Hroom i a Hi.
  destruct (decide (i < length acc)%nat) as [Hlt | Hge].
  - rewrite lookup_app_l in Hi by exact Hlt.
    rewrite take_app_le by lia. now apply Hacc.
  - rewrite lookup_app_r in Hi by lia.
    destruct (i - length acc)%nat as [|k] eqn:Hk; [| destruct k; discriminate Hi].
    injection Hi as <-.
    rewrite take_ge by (rewrite length_app; simpl; lia).
    rewrite in_window_app, length_app.
    assert (Hself : in_window now [now] = [now]).
    { unfold in_window. rewrite filter_cons_True; [reflexivity |].
      unfold RATE_LIMIT_WINDOW. lia. }
    rewrite Hself. simpl. lia.
Qed.

(** The invariant of a run: from [tmax] on, pruning the stored list of
    [ip] gives what pruning the accepted instants gives. *)
Lemma accepted_spaced ip calls :
  forall m acc tmax,
    clock_monotone tmax calls ->
    (forall now, tmax <= now ->
       in_window now (default [] (m !! ip)) = in_window now acc) ->
    spaced acc ->
    spaced (acc ++ accepted ip calls m).
Proof.
  induction calls as [|[ip' now] calls IH]; intros m acc tmax Hclock Hview Hacc.
  - simpl. now rewrite app_nil_r.
  - destruct Hclock as [Hnow Hclock]. simpl in Hnow, Hclock.
    cbn [accepted fst snd].
    destruct (decide (ip' = ip)) as [-> | Hne].
    + rewrite (bool_decide_eq_true_2 _ eq_refl), andb_true_r.
      destruct (checkRateLimit ip now m).1 eqn:Hverdict.
      * destruct (checkRateLimit_accepted ip now m Hverdict) as [Hroom Hmap].
        rewrite app_assoc. apply (IH _ _ now Hclock).
        -- intros now' Hle. rewrite Hmap, lookup_insert_eq. simpl.
           rewrite !in_window_app, in_window_later by exact Hle.
           f_equal. apply Hview. lia.
        -- apply spaced_snoc; [exact Hacc |].
           rewrite <- (Hview now Hnow). exact Hroom.
      * destruct (checkRateLimit_rejected ip now m Hverdict) as [_ Hmap].
        simpl. apply (IH _ _ now Hclock); [| exact Hacc].
        intros now' Hle. rewrite Hmap. apply Hview. lia.
    + rewrite (bool_decide_eq_false_2 _ Hne), andb_false_r. simpl.
      apply (IH _ _ now Hclock); [| exact Hacc].
      intros now' Hle. rewrite checkRateLimit_other by exact Hne.
      apply Hview. lia.
Qed.

(** What [ip] is granted does not depend on the calls of the others. *)
Lemma accepted_own_calls ip calls :
  forall m m', m !! ip = m' !! ip ->
    accepted ip calls m = accepted ip (filter (fun call => call.1 = ip) calls) m'.
Proof.
  induction calls as [|[ip' now] calls IH]; intros m m' Heq; [reflexivity |].
  destruct (decide (ip' = ip)) as [-> | Hne].
  - rewrite filter_cons_True by reflexivity. cbn [accepted fst snd].
    destruct (checkRateLimit_local ip now m m' Heq) as [-> Hnext].
    f_equal. now apply IH.
  - rewrite filter_cons_False by exact Hne. cbn [accepted fst snd].
    rewrite (bool_decide_eq_false_2 _ Hne), andb_false_r. simpl.
    apply IH. now rewrite checkRateLimit_other.
Qed.

Lemma checks_keeps_keys calls :
  forall m ip, is_Some (m !! ip) -> is_Some (checks calls m !! ip).
Proof.
  induction calls as [|[ip' now] calls IH]; intros m ip Hin; [exact Hin |].
  apply IH. cbn [fst snd]. rewrite checkRateLimit_unfold.
  case_decide; simpl; [exact Hin |].
  destruct (decide (ip' = ip)) as [-> | Hne].
  - rewrite lookup_insert_eq. eauto.
  - now rewrite lookup_insert_ne.
Qed.

End RateLimiterRunFacts.

(** X1: over any run of checks whose clock never runs backwards,
    whatever the addresses and however many calls are refused, each
    accepted instant of an address has at most three accepted instants of
    that address, itself included, in the 60 seconds that end at it. *)
Theorem X1_at_most_three_accepted_per_window
    (ip : option string) (calls : list (option string * Z)) (start : Z)
    (i : nat) (a : Z) :
  RateLimiterRuns.clock_monotone start calls ->
  RateLimiterRuns.accepted ip calls ∅ !! i = Some a ->
  (length (filter (fun time => (a - time < 60000)%Z)
             (take (S i) (RateLimiterRuns.accepted ip calls ∅))) <= 3)%nat.
Proof.
  intros Hclock Hi.
  apply (accepted_spaced ip calls ∅ [] start Hclock); [| | exact Hi].
  - intros now _. rewrite lookup_empty. reflexivity.
  - intros j b Hj. discriminate Hj.
Qed.

(** Five calls of one address in three seconds, with a call of another
    address in between: three are accepted. *)
Lemma X1_witness :
  let accepted :=
    RateLimiterRuns.accepted (Some "10.0.0.7")
      [(Some "10.0.0.7", 1000); (Some "10.0.0.7", 2000);
       (Some "10.0.0.9", 2500); (Some "10.0.0.7", 3000);
       (Some "10.0.0.7", 3500); (Some "10.0.0.7", 4000)] ∅ in
  accepted = [1000; 2000; 3000] /\
  (length (filter (fun time => (3000 - time < 60000)%Z) (take 3 accepted)) <= 3)%nat.
Proof.
  split; [reflexivity |].
  apply (X1_at_most_three_accepted_per_window (Some "10.0.0.7") _ 0 2 3000).
  - simpl. lia.
  - reflexivity.
Defined.

(** X2: the instants at which an address is accepted are the same as if
    the calls of every other address had never been made, and a call never
    changes the list stored for another address. *)
Theorem X2_addresses_are_independent
    (ip : option string) (calls : list (option string * Z))
    (m : gmap (option string) (list Z)) :
  RateLimiterRuns.accepted ip calls m
  = RateLimiterRuns.accepted ip (filter (fun call => call.1 = ip) calls) m /\
  (forall ip' now,
     ip' <> ip -> (RateLimiter.checkRateLimit ip' now m).2 !! ip = m !! ip).
Proof.
  split.
  - now apply accepted_own_calls.
  - intros ip' now Hne. now apply checkRateLimit_other.
Qed.

(** X3: no check ever removes an address from the map: an address that
    has a list keeps one through every later run of checks. *)
Theorem X3_rate_limit_keys_are_never_removed
    (calls : list (option string * Z)) (m : gmap (option string) (list Z))
    (ip : option string) :
  is_Some (m !! ip) -> is_Some (RateLimiter.checks calls m !! ip).
Proof.
  intros Hin. now apply checks_keeps_keys.
Qed.

(** An address accepted once is still a key after calls of others and a
    refusal-free hour. *)
Lemma X3_witness :
  is_Some
    (RateLimiter.checks [(Some "10.0.0.9", 5000); (Some "10.0.0.9", 3700000)]
       {[ Some "10.0.0.7" := [1000] ]} !! Some "10.0.0.7").
Proof.
  apply X3_rate_limit_keys_are_never_removed.
  rewrite lookup_singleton_eq. eauto.
Defined.

(** ** Start-up and random choices *)

Section StartupFacts.

Import Startup.

Lemma setupCookies_path projectCookies env files :
  (setupCookies projectCookies env files).1.1 =
  if production env then "/tmp/cookies.txt" else projectCookies.
Proof.
  unfold setupCookies.
  destruct (JS.truthy (YOUTUBE_COOKIES env)); [reflexivity |].
  destruct (files !! projectCookies); [destruct (production env) |]; reflexivity.
Qed.

End StartupFacts.

(** X4: [setupCookies] returns [/tmp/cookies.txt] in production and the
    project's [cookies.txt] otherwise, and never touches a file elsewhere.
    With a non-empty [YOUTUBE_COOKIES] the file at the returned path holds
    that text afterwards; without it the file there holds what the
    project's [cookies.txt] holds, when that exists; with neither source
    the file system is as it was. *)
Theorem X4_setupCookies_installs_the_cookie_file
    (projectCookies : string) (env : Startup.Env) (files : gmap string string) :
  let result := Startup.setupCookies projectCookies env files in
  let cookiesPath := result.1.1 in
  let files' := result.1.2 in
  (cookiesPath = if Startup.production env then "/tmp/cookies.txt" else projectCookies) /\
  (forall path, path <> cookiesPath -> files' !! path = files !! path) /\
  (forall text, Startup.YOUTUBE_COOKIES env = Some text -> text <> EmptyString ->
     files' !! cookiesPath = Some text /\ result.2 = Startup.LoadedFromEnvironment) /\
  (JS.truthy (Startup.YOUTUBE_COOKIES env) = false ->
     forall content, files !! projectCookies = Some content ->
       files' !! cookiesPath = Some content) /\
  (JS.truthy (Startup.YOUTUBE_COOKIES env) = false ->
     files !! projectCookies = None ->
     files' = files /\ result.2 = Startup.NoCookies).
Proof.
  intros result cookiesPath files'.
  assert (Hpath : cookiesPath =
            if Startup.production env then "/tmp/cookies.txt" else projectCookies)
    by apply setupCookies_path.
  split; [exact Hpath |].
  subst files' cookiesPath result. unfold Startup.setupCookies in *.
  destruct (JS.truthy (Startup.YOUTUBE_COOKIES env)) eqn:Henv.
  - cbn [fst snd] in *. split; [| split; [| split]].
    + intros path Hne. now rewrite lookup_insert_ne.
    + intros text Htext _. rewrite Htext. simpl. now rewrite lookup_insert_eq.
    + discriminate.
    + discriminate.
  - destruct (files !! projectCookies) as [content|] eqn:Hfile.
    + destruct (Startup.production env) eqn:Hprod; cbn [fst snd] in *.
      * split; [| split; [| split]].
        -- intros path Hne. now rewrite lookup_insert_ne.
        -- intros text Htext Hne. rewrite Htext in Henv. simpl in Henv.
           destruct (String.eqb_spec text EmptyString); [contradiction | discriminate].
        -- intros _ c [= <-]. now rewrite lookup_insert_eq.
        -- discriminate.
      * split; [| split; [| split]].
        -- reflexivity.
        -- intros text Htext Hne. rewrite Htext in Henv. simpl in Henv.
           destruct (String.eqb_spec text EmptyString); [contradiction | discriminate].
        -- intros _ c [= <-]. exact Hfile.
        -- discriminate.
    + cbn [fst snd] in *. split; [| split; [| split]].
      * reflexivity.
      * intros text Htext Hne. rewrite Htext in Henv. simpl in Henv.
        destruct (String.eqb_spec text EmptyString); [contradiction | discriminate].
      * discriminate.
      * auto.
Qed.

(** Production, with the cookies in the variable: they land in
    [/tmp/cookies.txt] and the project file is left alone. *)
Lemma X4_witness :
  let result :=
    Startup.setupCookies "/app/cookies.txt"
      {| Startup.NODE_ENV := Some "production";
         Startup.YOUTUBE_COOKIES := Some "# Netscape HTTP Cookie File" |}
      {[ "/app/cookies.txt" := "old" ]} in
  result.1.2 !! "/tmp/cookies.txt" = Some "# Netscape HTTP Cookie File" /\
  result.1.2 !! "/app/cookies.txt" = Some "old".
Proof.
  pose proof (X4_setupCookies_installs_the_cookie_file "/app/cookies.txt"
                {| Startup.NODE_ENV := Some "production";
                   Startup.YOUTUBE_COOKIES := Some "# Netscape HTTP Cookie File" |}
                {[ "/app/cookies.txt" := "old" ]}) as (_ & Hframe & Henv & _).
  split.
  - apply (Henv "# Netscape HTTP Cookie File"); [reflexivity | discriminate].
  - rewrite (Hframe "/app/cookies.txt"); [reflexivity | discriminate].
Defined.

Section RandomFacts.

Import Random.

(** The index stays inside a table that is not empty. *)
Lemma index_in_range (random : Q) (n : nat) :
  (0 < n)%nat -> (0 <= random)%Q -> (random < 1)%Q -> (index random n < n)%nat.
Proof.
  intros Hn Hlow Hhigh. unfold index.
  set (x := (random * inject_Z (Z.of_nat n))%Q).
  assert (Hpos : (0 < inject_Z (Z.of_nat n))%Q).
  { rewrite <- (Zlt_Qlt 0). lia. }
  assert (Hx0 : (0 <= x)%Q) by (apply Qmult_le_0_compat; [exact Hlow | now apply Qlt_le_weak]).
  assert (Hx1 : (x < inject_Z (Z.of_nat n))%Q).
  { unfold x. rewrite <- (Qmult_1_l (inject_Z (Z.of_nat n))) at 2.
    now apply Qmult_lt_compat_r. }
  assert (Hf0 : 0 <= Qfloor x).
  { change 0 with (Qfloor 0). now apply Qfloor_resp_le. }
  assert (Hf1 : Qfloor x < Z.of_nat n).
  { rewrite Zlt_Qlt. eapply Qle_lt_trans; [apply Qfloor_le | exact Hx1]. }
  lia.
Qed.

Lemma pick_in_table (table : list string) (random : Q) :
  table <> [] -> (0 <= random)%Q -> (random < 1)%Q ->
  exists choice, pick table random = Some choice /\ choice ∈ table.
Proof.
  intros Hne Hlow Hhigh. unfold pick.
  assert (Hlen : (0 < length table)%nat) by (destruct table; [contradiction | simpl; lia]).
  destruct (lookup_lt_is_Some_2 table (index random (length table))) as [choice Hc].
  { now apply index_in_range. }
  exists choice. split; [exact Hc |]. apply list_elem_of_lookup. eauto.
Qed.

End RandomFacts.

(** X5: for every value [Math.random()] can return, at least 0 and less
    than 1, [getRandomUserAgent] and [getExtractorArgs] return an entry of
    their table, never [undefined]: in the retrying revision and in the
    rate-limited simple one. *)
Theorem X5_random_choice_is_a_table_entry (random : Q) :
  (0 <= random)%Q -> (random < 1)%Q ->
  (exists ua, Random.getRandomUserAgent random = Some ua /\ ua ∈ Random.userAgents) /\
  (exists ea, Random.getExtractorArgs random = Some ea /\ ea ∈ Random.extractorOptions) /\
  (exists ua, Random.getRandomUserAgent_limited random = Some ua /\
              ua ∈ SimpleLimited.userAgents /\
              SimpleLimited.getRandomUserAgent
                (Random.index random (length SimpleLimited.userAgents)) = ua).
Proof.
  intros Hlow Hhigh. split; [| split].
  - now apply pick_in_table.
  - now apply pick_in_table.
  - destruct (pick_in_table SimpleLimited.userAgents random) as (ua & Hua & Hin);
      [discriminate | exact Hlow | exact Hhigh |].
    exists ua. split; [exact Hua |]. split; [exact Hin |].
    unfold SimpleLimited.getRandomUserAgent.
    unfold Random.pick in Hua. now rewrite Hua.
Qed.

(** The largest values of [Math.random()] choose the last entry. *)
Lemma X5_witness :
  exists ea, Random.getExtractorArgs (999 # 1000) = Some ea /\
             ea ∈ Random.extractorOptions.
Proof.
  apply (X5_random_choice_is_a_table_entry (999 # 1000)); [discriminate | reflexivity].
Defined.

(** ** The metadata prefetch *)

Section MetadataFacts.

Import MetadataPrefetch.

Local Arguments String.append !_ _ / : simpl nomatch.
Local Arguments Ascii.eqb : simpl never.

(** A field without a bar is read up to the separator that follows. *)
Lemma split_go_field x : forall cur rest,
  no_bar x = true ->
  split_go "|||" 0 cur (x +:+ "|||" +:+ rest)
  = (cur +:+ x) :: split_go "|||" 0 EmptyString rest.
Proof.
  induction x as [|c x IH]; intros cur rest Hx.
  - replace (cur +:+ EmptyString) with cur
      by (clear; induction cur as [|b cur IH]; simpl; [reflexivity | now rewrite <- IH]).
    reflexivity.
  - unfold no_bar in Hx. simpl in Hx. apply andb_true_iff in Hx as [Hc Hx].
    change (String c x +:+ "|||" +:+ rest) with (String c (x +:+ "|||" +:+ rest)).
    cbn [split_go].
    assert (Hstart : JS.starts_with "|||" (String c (x +:+ "|||" +:+ rest)) = false).
    { unfold JS.starts_with. simpl. now destruct (Ascii.eqb "|" c). }
    rewrite Hstart, (IH _ _ Hx). f_equal.
    now rewrite append_assoc.
Qed.

(** The last field runs to the end of the text. *)
Lemma split_go_last x : forall cur,
  no_bar x = true -> split_go "|||" 0 cur x = [cur +:+ x].
Proof.
  induction x as [|c x IH]; intros cur Hx.
  - replace (cur +:+ EmptyString) with cur
      by (clear; induction cur as [|b cur IH]; simpl; [reflexivity | now rewrite <- IH]).
    reflexivity.
  - unfold no_bar in Hx. simpl in Hx. apply andb_true_iff in Hx as [Hc Hx].
    cbn [split_go].
    assert (Hstart : JS.starts_with "|||" (String c x) = false).
    { unfold JS.starts_with. simpl. now destruct (Ascii.eqb "|" c). }
    rewrite Hstart, (IH _ Hx). now rewrite append_assoc.
Qed.

Lemma split_three t d u :
  no_bar t = true -> no_bar d = true -> no_bar u = true ->
  split "|||" (t +:+ "|||" +:+ d +:+ "|||" +:+ u) = [t; d; u].
Proof.
  intros Ht Hd Hu. unfold split.
  now rewrite (split_go_field t), (split_go_field d), (split_go_last u).
Qed.

(** The ten digits, one by one. *)
Lemma is_digit_cases c :
  JS.is_digit c = true ->
  c ∈ ["0"; "1"; "2"; "3"; "4"; "5"; "6"; "7"; "8"; "9"]%char.
Proof.
  destruct c as [[] [] [] [] [] [] [] []]; intros H;
    try discriminate H; set_solver.
Qed.

Lemma digits_in_decimal d : forall acc,
  JS.all_chars JS.is_digit d = true ->
  digits_in 10 (Some acc) d = Some (JS.digits_value acc d).
Proof.
  induction d as [|c d IH]; intros acc Hd; [reflexivity |].
  simpl in Hd. apply andb_true_iff in Hd as [Hc Hd].
  cbn [digits_in JS.digits_value].
  assert (Hv : digit_in 10 c = Some (Z.of_nat (nat_of_ascii c) - 48)).
  { apply is_digit_cases in Hc. repeat (apply elem_of_cons in Hc as [-> | Hc]; [reflexivity |]).
    now apply elem_of_nil in Hc. }
  rewrite Hv. simpl default. now apply IH.
Qed.

(** [parseInt] on a run of decimal digits is the number they spell. *)
Lemma parseInt_decimal d :
  d <> EmptyString -> JS.all_chars JS.is_digit d = true ->
  parseInt d = Some (JS.digits_value 0 d).
Proof.
  intros Hne Hd. destruct d as [|c d]; [contradiction |].
  simpl in Hd. apply andb_true_iff in Hd as [Hc Hd].
  assert (Hfinish : forall acc rest,
            JS.all_chars JS.is_digit rest = true ->
            Z.mul 1 <$> digits_in 10 (Some acc) rest
            = Some (JS.digits_value acc rest)).
  { intros acc rest Hrest. rewrite digits_in_decimal by exact Hrest.
    cbn [fmap option_fmap option_map]. now rewrite Z.mul_1_l. }
  apply is_digit_cases in Hc.
  apply elem_of_cons in Hc as [-> | Hc].
  - (* the digit 0: what follows is a digit, not an x *)
    destruct d as [|c2 d]; [reflexivity |].
    simpl in Hd. apply andb_true_iff in Hd as [Hc2 Hd].
    apply is_digit_cases in Hc2.
    repeat (apply elem_of_cons in Hc2 as [-> | Hc2];
            [unfold parseInt; simpl; now apply Hfinish |]).
    now apply elem_of_nil in Hc2.
  - repeat (apply elem_of_cons in Hc as [-> | Hc];
            [unfold parseInt; simpl; now apply Hfinish |]).
    now apply elem_of_nil in Hc.
Qed.

End MetadataFacts.

(** X6: when the metadata subprocess exits with code 0 and its trimmed
    output is [title|||duration|||uploader] with no bar inside the three
    fields and a duration that [parseInt] reads as less than 2^53 in size
    (the range in which a JavaScript number is the integer itself), the
    cache gets exactly that title and uploader under the video's key, with
    the duration read by [parseInt] (the number itself when the field is a
    run of decimal digits below 2^53, 0 when [parseInt] fails), and a timer
    of one hour is set whose firing removes the entry again.  Any other
    exit code leaves the world as it was and sets no timer. *)
Theorem X6_metadata_is_cached_for_an_hour
    (id t d u metadata : string) (w : World) :
  MetadataPrefetch.trim metadata = t +:+ "|||" +:+ d +:+ "|||" +:+ u ->
  MetadataPrefetch.no_bar t = true ->
  MetadataPrefetch.no_bar d = true ->
  MetadataPrefetch.no_bar u = true ->
  Z.abs (default 0 (MetadataPrefetch.parseInt d)) < 2 ^ 53 ->
  let cached := {| title := t;
                   duration := default 0 (MetadataPrefetch.parseInt d);
                   uploader := u |} in
  let result := MetadataPrefetch.on_close id (Some 0) metadata w in
  result.2 = Some 3600000 /\
  metadataCache result.1 !! id = Some cached /\
  (forall other, other <> id ->
     metadataCache result.1 !! other = metadataCache w !! other) /\
  (d <> EmptyString -> JS.all_chars JS.is_digit d = true ->
     JS.digits_value 0 d < 2 ^ 53 ->
     duration cached = JS.digits_value 0 d) /\
  metadataCache (MetadataPrefetch.on_timer id result.1) !! id = None /\
  (forall code, code <> Some 0 ->
     MetadataPrefetch.on_close id code metadata w = (w, None)).
Proof.
  intros Htrim Ht Hd Hu Hsafe cached result.
  assert (Hrun : result =
            (MetadataPrefetch.set_metadataCache (insert id cached) w, Some 3600000)).
  { subst result cached. unfold MetadataPrefetch.on_close.
    rewrite Htrim, split_three by assumption.
    assert (Htruthy : JS.truthy (Some (t +:+ "|||" +:+ d +:+ "|||" +:+ u)) = true)
      by (destruct t; reflexivity).
    rewrite Htruthy. reflexivity. }
  rewrite Hrun. cbn [fst snd]. split; [reflexivity |].
  split; [apply lookup_insert_eq |].
  split; [intros other Hne; simpl; now rewrite lookup_insert_ne |].
  split.
  { intros Hne Hdigits _. subst cached. simpl.
    now rewrite parseInt_decimal. }
  split; [simpl; apply lookup_delete_eq |].
  intros code Hcode. unfold MetadataPrefetch.on_close.
  now rewrite bool_decide_eq_false_2 by exact Hcode.
Qed.

(** The line the tool prints for a song of 212 seconds, with its line
    feed; and a duration the tool does not know. *)
Lemma X6_witness :
  metadataCache
    (MetadataPrefetch.on_close "dQw4w9WgXcQ" (Some 0)
       "Never Gonna Give You Up|||212|||Rick Astley
" Sample.world).1 !! "dQw4w9WgXcQ"
  = Some {| title := "Never Gonna Give You Up"; duration := 212;
            uploader := "Rick Astley" |} /\
  MetadataPrefetch.duration_of (Some "NA") = 0.
Proof.
  split; [| reflexivity].
  destruct (X6_metadata_is_cached_for_an_hour "dQw4w9WgXcQ"
              "Never Gonna Give You Up" "212" "Rick Astley"
              "Never Gonna Give You Up|||212|||Rick Astley
" Sample.world eq_refl eq_refl eq_refl eq_refl eq_refl) as (_ & Hcached & _).
  exact Hcached.
Defined.

(** ** Subprocesses per request *)

(** X7: an accepted download of the simple revision spawns the metadata
    subprocess and then the extraction subprocess when the cache has no
    entry for the video, and the extraction subprocess alone when it has
    one; the entry put in the active-downloads map always names the
    subprocess spawned last.  So a download that follows a successful
    prefetch of the same video spawns one subprocess, and after the
    hour's timer it spawns two again. *)
Theorem X7_metadata_subprocess_only_on_cache_miss
    (req : Request) (w : World) (id : string) :
  query_id req = Some id -> id <> EmptyString ->
  let started := Simple.world (Simple.download req w) in
  (metadataCache w !! id = None ->
     spawned started = spawned w ++ [Simple.metadataArgs id; Simple.args id]) /\
  (is_Some (metadataCache w !! id) ->
     spawned started = spawned w ++ [Simple.args id]) /\
  (exists entry, activeDownloads started !! id = Some entry /\
                 spawned started !! process entry = Some (Simple.args id) /\
                 S (process entry) = length (spawned started)) /\
  (forall metadata,
     (MetadataPrefetch.on_close id (Some 0) metadata w).2 = Some 3600000 ->
     let cached := (MetadataPrefetch.on_close id (Some 0) metadata w).1 in
     spawned (Simple.world (Simple.download req cached))
       = spawned w ++ [Simple.args id] /\
     spawned (Simple.world (Simple.download req (MetadataPrefetch.on_timer id cached)))
       = spawned w ++ [Simple.metadataArgs id; Simple.args id]).
Proof.
  intros Hid Hne started.
  assert (Htruthy : JS.truthy (query_id req) = true).
  { rewrite Hid. simpl. now destruct (String.eqb_spec id EmptyString). }
  assert (Hmiss : forall w0, metadataCache w0 !! id = None ->
            spawned (Simple.world (Simple.download req w0))
            = spawned w0 ++ [Simple.metadataArgs id; Simple.args id]).
  { intros w0 Hnone. unfold Simple.download, Simple.start.
    rewrite Htruthy, Hid. simpl negb. cbv iota. simpl default.
    rewrite bool_decide_eq_true_2 by exact Hnone. simpl.
    now rewrite <- app_assoc. }
  assert (Hhit : forall w0, is_Some (metadataCache w0 !! id) ->
            spawned (Simple.world (Simple.download req w0))
            = spawned w0 ++ [Simple.args id]).
  { intros w0 [md Hsome]. unfold Simple.download, Simple.start.
    rewrite Htruthy, Hid. simpl negb. cbv iota. simpl default.
    rewrite bool_decide_eq_false_2 by (rewrite Hsome; discriminate). reflexivity. }
  split; [apply Hmiss |]. split; [apply Hhit |]. split.
  - subst started. unfold Simple.download, Simple.start.
    rewrite Htruthy, Hid. simpl negb. cbv iota. simpl default.
    destruct (bool_decide (metadataCache w !! id = None)); simpl;
      (eexists; split; [apply lookup_insert_eq |]); simpl;
      rewrite ?length_app; simpl; (split; [| lia]).
    + rewrite lookup_app_r by (rewrite length_app; simpl; lia).
      rewrite length_app. simpl.
      replace (length (spawned w) + 1 - (length (spawned w) + 1))%nat with 0%nat by lia.
      reflexivity.
    + rewrite lookup_app_r by lia.
      replace (length (spawned w) - length (spawned w))%nat with 0%nat by lia.
      reflexivity.
  - intros metadata Htimer cached.
    assert (Hcached : cached =
              MetadataPrefetch.set_metadataCache
                (insert id (MetadataPrefetch.entry_of
                              (MetadataPrefetch.split "|||" (MetadataPrefetch.trim metadata)))) w).
    { subst cached. unfold MetadataPrefetch.on_close in *.
      destruct (bool_decide (Some 0 = Some 0) && JS.truthy _); [reflexivity |].
      discriminate Htimer. }
    split.
    + rewrite Hhit; [now rewrite Hcached |].
      rewrite Hcached. simpl. rewrite lookup_insert_eq. eauto.
    + rewrite Hmiss; [now rewrite Hcached |].
      simpl. apply lookup_delete_eq.
Qed.

(** The sample request against the sample world, whose cache is empty. *)
Lemma X7_witness :
  spawned (Simple.world (Simple.download Sample.request Sample.world))
  = spawned Sample.world
    ++ [Simple.metadataArgs "dQw4w9WgXcQ"; Simple.args "dQw4w9WgXcQ"].
Proof.
  destruct (X7_metadata_subprocess_only_on_cache_miss
              Sample.request Sample.world "dQw4w9WgXcQ" eq_refl)
    as (Hmiss & _); [discriminate |].
  apply Hmiss. reflexivity.
Defined.

(** ** The response once its headers are sent *)

(** X8: once the headers of a response are sent, no callback of its
    download changes it any more.  In the retrying revision neither a chunk
    on stdout, nor a close with any exit code, nor a spawn error touches
    the response; in the simple revisions close and error leave it alone.
    So a failure after the first byte never turns into a 500. *)
Theorem X8_sent_headers_freeze_the_response :
  (forall a,
     Http.headersSent (Retrying.res a) = true ->
     (forall data, Retrying.res (Retrying.on_stdout data a) = Retrying.res a) /\
     (forall code w, Retrying.res (Retrying.on_close code w a).1.2 = Retrying.res a) /\
     (forall message w,
        Retrying.res (Retrying.on_error message w a).1.2 = Retrying.res a)) /\
  (forall d,
     Http.headersSent (Simple.res d) = true ->
     (forall code w,
        (Simple.on_close code w d).2 = d /\ (SimpleLimited.on_close code w d).2 = d) /\
     (forall w, (Simple.on_error w d).2 = d)).
Proof.
  split.
  - intros a Hsent. split; [| split].
    + intros data. unfold Retrying.on_stdout. simpl. now rewrite Hsent.
    + intros code w. unfold Retrying.on_close. rewrite Hsent. simpl.
      destruct (Retrying.succeeded code a); [reflexivity |].
      destruct (Retrying.should_retry code a); reflexivity.
    + intros message w. unfold Retrying.on_error. rewrite Hsent. simpl.
      destruct (bool_decide _); reflexivity.
  - intros d Hsent. split.
    + intros code w. unfold Simple.on_close, SimpleLimited.on_close.
      rewrite Hsent. simpl. destruct (bool_decide (code = Some 0)); auto.
    + intros w. unfold Simple.on_error. now rewrite Hsent.
Qed.

(** A first chunk, then exit code 2 on the third attempt: the response
    stays at status 200 with the chunk in its body. *)
Lemma X8_witness :
  let a := Retrying.on_stdout "OggS"
             {| Retrying.a_id := "dQw4w9WgXcQ"; Retrying.a_attempt := 3;
                Retrying.res := Http.fresh; Retrying.hasData := false;
                Retrying.errorOutput := EmptyString |} in
  Retrying.res (Retrying.on_close (Some 2) Sample.world a).1.2
  = {| Http.statusCode := 200; Http.headers := []; Http.headersSent := true;
       Http.body := [Http.Bytes "OggS"]; Http.finished := false |}.
Proof.
  intros a.
  rewrite (proj1 (proj2 (proj1 X8_sent_headers_freeze_the_response a eq_refl))).
  reflexivity.
Defined.

(** ** One step of the retry loop *)

(** X9: when a close schedules a retry, the delay is 2000 ms and the
    next attempt number is one more and at most 3.  The next call of
    [tryDownloadWithFallbacks] spawns the argument list of that number and
    puts a fresh entry in the map; it registers callbacks, starting again
    without data and with an empty stderr text, only when the failed
    attempt had sent no headers.  After a first byte the retry spawns its
    subprocess but registers nothing. *)
Theorem X9_retry_restarts_only_before_the_first_byte
    (cookiesPath : string) (code : option Z) (w : World) (a : Retrying.Attempt)
    (delay : Z) (next : nat) :
  (Retrying.on_close code w a).2 = Retrying.RetryAfter delay next ->
  let closed := Retrying.on_close code w a in
  let retried :=
    Retrying.tryDownloadWithFallbacks cookiesPath (Retrying.a_id a)
      (Retrying.res closed.1.2) next closed.1.1 in
  delay = 2000 /\ next = (Retrying.a_attempt a + 1)%nat /\ (next <= 3)%nat /\
  spawned retried.1 = spawned w ++ [Retrying.args cookiesPath (Retrying.a_id a) next] /\
  activeDownloads retried.1 !! Retrying.a_id a
    = Some {| process := length (spawned w); progress := 0; attempt := Some next |} /\
  (Http.headersSent (Retrying.res a) = false ->
     exists a', retried.2 = Some a' /\
       Retrying.a_attempt a' = next /\ Retrying.hasData a' = false /\
       Retrying.errorOutput a' = EmptyString /\
       Http.body (Retrying.res a') = Http.body (Retrying.res a)) /\
  (Http.headersSent (Retrying.res a) = true -> retried.2 = None).
Proof.
  intros Hretry closed retried.
  assert (Hclosed : closed =
            (broadcast (Retrying.retrying_event (Retrying.a_id a) (Retrying.a_attempt a))
               (set_activeDownloads (delete (Retrying.a_id a)) w),
             a, Retrying.RetryAfter 2000 (Retrying.a_attempt a + 1))
            /\ Retrying.should_retry code a = true).
  { subst closed. unfold Retrying.on_close in *.
    destruct (Retrying.succeeded code a); [discriminate Hretry |].
    destruct (Retrying.should_retry code a); [auto | discriminate Hretry]. }
  destruct Hclosed as [Hclosed Hshould].
  assert (Hnext : delay = 2000 /\ next = (Retrying.a_attempt a + 1)%nat).
  { fold closed in Hretry. rewrite Hclosed in Hretry. simpl in Hretry.
    injection Hretry as <- <-. auto. }
  destruct Hnext as [-> ->].
  split; [reflexivity |]. split; [reflexivity |]. split.
  { unfold Retrying.should_retry, Retrying.maxAttempts in Hshould.
    apply andb_true_iff in Hshould as [Hlt _].
    apply bool_decide_eq_true_1 in Hlt. lia. }
  subst retried. rewrite Hclosed. cbn [fst snd].
  split; [now rewrite tryDownloadWithFallbacks_spawned |].
  split.
  { unfold Retrying.tryDownloadWithFallbacks. simpl.
    destruct (Http.setHeader "Content-Type" "audio/webm" (Retrying.res a) ≫= _);
      simpl; apply lookup_insert_eq. }
  split.
  - intros Hfresh. unfold Retrying.tryDownloadWithFallbacks, Http.setHeader. simpl.
    rewrite Hfresh. simpl. eexists. split; [reflexivity |]. simpl. auto.
  - intros Hsent.
    now apply (tryDownloadWithFallbacks_headers_sent cookiesPath).
Qed.

(** Exit code 1 on the first attempt of the sample world, before any
    byte: the second attempt starts with a clean closure. *)
Lemma X9_witness :
  exists a',
    (Retrying.tryDownloadWithFallbacks "/tmp/cookies.txt" "dQw4w9WgXcQ"
       (Retrying.res (Retrying.on_close (Some 1) Sample.world Sample.attempt1).1.2)
       2 (Retrying.on_close (Some 1) Sample.world Sample.attempt1).1.1).2 = Some a' /\
    Retrying.a_attempt a' = 2%nat.
Proof.
  destruct (X9_retry_restarts_only_before_the_first_byte
              "/tmp/cookies.txt" (Some 1) Sample.world Sample.attempt1 2000 2 eq_refl)
    as (_ & _ & _ & _ & _ & Hfresh & _).
  destruct (Hfresh eq_refl) as (a' & Hstarted & Hattempt & _).
  exists a'. split; [exact Hstarted | exact Hattempt].
Defined.

(** ** The failure answer *)

(** X10: a close of the retrying revision that is neither a success nor
    retried, on a response whose headers are not sent, rejects the promise
    and answers status 500 with [error: "Download failed"] and
    [attempts: 3], whatever the number of the attempt; the response is
    ended.  A first attempt that ends with an exit code other than 1 and
    without a marker in its stderr text is such a close. *)
Theorem X10_failure_answer_always_reports_three_attempts
    (code : option Z) (w : World) (a : Retrying.Attempt) :
  Retrying.succeeded code a = false ->
  Retrying.should_retry code a = false ->
  Http.headersSent (Retrying.res a) = false ->
  let result := Retrying.on_close code w a in
  let answer := Retrying.res result.1.2 in
  result.2 = Retrying.Rejected /\
  Http.statusCode answer = 500 /\
  Http.finished answer = true /\
  Http.body answer = Http.body (Retrying.res a) ++ [Http.Json Retrying.failed_payload] /\
  JS.get "attempts" Retrying.failed_payload = Some (JS.JNum 3) /\
  JS.get "error" Retrying.failed_payload = Some (JS.JStr "Download failed") /\
  clients result.1.1 = Ws.broadcast (Retrying.failed_event (Retrying.a_id a)) (clients w).
Proof.
  intros Hfail Hterminal Hfresh result answer.
  subst answer result. unfold Retrying.on_close.
  rewrite Hfail, Hterminal, Hfresh. simpl. repeat split.
Qed.

(** Exit code 2 on the first attempt, nothing on stderr. *)
Lemma X10_witness :
  Http.statusCode
    (Retrying.res (Retrying.on_close (Some 2) Sample.world Sample.attempt1).1.2) = 500 /\
  (Retrying.on_close (Some 2) Sample.world Sample.attempt1).2 = Retrying.Rejected.
Proof.
  destruct (X10_failure_answer_always_reports_three_attempts
              (Some 2) Sample.world Sample.attempt1 eq_refl eq_refl eq_refl)
    as (Hrejected & Hstatus & _).
  split; [exact Hstatus | exact Hrejected].
Defined.

(** ** Sockets across the callbacks *)

Section SocketFacts.

Import Sockets.

Lemma grown_refl cs : grown cs cs.
Proof.
  unfold grown. induction cs as [|c cs IH]; constructor; [| exact IH].
  split; [reflexivity |]. split; [| reflexivity].
  exists []. now rewrite app_nil_r.
Qed.

Lemma grown_broadcast msg cs : grown cs (Ws.broadcast msg cs).
Proof.
  unfold grown, Ws.broadcast. induction cs as [|c cs IH]; simpl; constructor; [| exact IH].
  destruct (Z.eqb_spec (Ws.readyState c) 1) as [E | E]; simpl.
  - split; [reflexivity |]. split; [now exists [msg] | intros Hne; contradiction].
  - split; [reflexivity |]. split; [| reflexivity].
    exists []. now rewrite app_nil_r.
Qed.

Lemma grown_trans cs1 cs2 cs3 : grown cs1 cs2 -> grown cs2 cs3 -> grown cs1 cs3.
Proof.
  unfold grown. intros H12. revert cs3.
  induction H12 as [|c1 c2 cs1 cs2 (Hs & (add1 & Ha) & Hc) _ IH]; intros cs3 H23.
  - inversion H23. constructor.
  - inversion H23 as [|c2' c3 cs2' cs3' (Hs' & (add2 & Ha') & Hc') Hrest]; subst.
    constructor; [| now apply IH].
    split; [congruence |]. split.
    + exists (add1 ++ add2). now rewrite Ha', Ha, app_assoc.
    + intros Hne. rewrite Hc' by congruence. now apply Hc.
Qed.

End SocketFacts.

(** X11: no callback of a download, in any revision, closes, drops or
    reorders a socket, removes or reorders a message already sent, or
    sends anything to a socket that is not open: across each callback the
    inbox of every socket only grows at its end, and only if the socket is
    open.  The request handlers and the metadata callbacks leave the
    sockets as they are. *)
Theorem X11_callbacks_only_append_to_open_sockets :
  (forall output w a w' a',
     Retrying.on_stderr output w a = Some (w', a') ->
     Sockets.grown (clients w) (clients w')) /\
  (forall code message w a,
     Sockets.grown (clients w) (clients (Retrying.on_close code w a).1.1) /\
     clients (Retrying.on_error message w a).1.1 = clients w) /\
  (forall toFixed1 output code w d,
     Sockets.grown (clients w) (clients (Simple.on_stderr toFixed1 output w d)) /\
     Sockets.grown (clients w) (clients (SimpleLimited.on_stderr toFixed1 output w d)) /\
     Sockets.grown (clients w) (clients (Simple.on_close code w d).1) /\
     Sockets.grown (clients w) (clients (SimpleLimited.on_close code w d).1) /\
     Sockets.grown (clients w) (clients (Simple.on_error w d).1)) /\
  (forall cookiesPath i j req now id code metadata w,
     clients (Retrying.world (Retrying.download cookiesPath req now w)) = clients w /\
     clients (Simple.world (Simple.download req w)) = clients w /\
     clients (Simple.world (SimpleLimited.download i j req now w)) = clients w /\
     clients (MetadataPrefetch.on_close id code metadata w).1 = clients w /\
     clients (MetadataPrefetch.on_timer id w) = clients w).
Proof.
  split; [| split; [| split]].
  - intros output w a w' a'. unfold Retrying.on_stderr.
    destruct (Classifier.progressMatch (Classifier.classify output)).
    + cbn [Retrying.a_id].
      destruct (activeDownloads w !! Retrying.a_id a); [| discriminate].
      intros [= <- _]. apply grown_broadcast.
    + intros [= <- _]. apply grown_broadcast.
  - intros code message w a. split.
    + unfold Retrying.on_close.
      destruct (Retrying.succeeded code a); [| destruct (Retrying.should_retry code a)];
        apply grown_broadcast.
    + unfold Retrying.on_error. now destruct (bool_decide _).
  - intros toFixed1 output code w d.
    assert (Hprogress : forall captured c,
              Sockets.grown (clients w)
                (clients (Simple.report_progress toFixed1 captured c w d))).
    { intros captured c. rewrite clients_report_progress. apply grown_broadcast. }
    split; [| split; [| split; [| split]]].
    + unfold Simple.on_stderr.
      destruct (Classifier.progressMatch _); [apply Hprogress | apply grown_broadcast].
    + unfold SimpleLimited.on_stderr.
      destruct (Classifier.progressMatch _); [apply Hprogress |].
      destruct (_ || _); [| apply grown_broadcast].
      eapply grown_trans; apply grown_broadcast.
    + unfold Simple.on_close.
      destruct (bool_decide _); [apply grown_broadcast |].
      destruct (negb _); apply grown_refl.
    + unfold SimpleLimited.on_close.
      destruct (bool_decide _); [apply grown_broadcast |].
      destruct (negb _); apply grown_broadcast.
    + unfold Simple.on_error. destruct (negb _); apply grown_broadcast.
  - intros cookiesPath i j req now id code metadata w.
    unfold Retrying.download, Simple.download, SimpleLimited.download,
      MetadataPrefetch.on_close.
    destruct (negb (JS.truthy (query_id req))); simpl.
    + split; [reflexivity |]. split; [reflexivity |]. split; [reflexivity |].
      split; [| reflexivity]. now destruct (_ && _).
    + destruct (RateLimiter.checkRateLimit (clientIP req) now (rateLimitMap w))
        as [[] limits]; simpl.
      * split.
        { unfold Retrying.tryDownloadWithFallbacks. simpl. reflexivity. }
        split; [unfold Simple.start; now destruct (bool_decide _) |].
        split; [unfold Simple.start; simpl; now destruct (bool_decide _) |].
        split; [| reflexivity]. now destruct (_ && _).
      * split; [reflexivity |].
        split; [unfold Simple.start; now destruct (bool_decide _) |].
        split; [reflexivity |].
        split; [| reflexivity]. now destruct (_ && _).
Qed.

(** A progress line in the sample world: the closing socket keeps an
    empty inbox. *)
Lemma X11_witness :
  exists w' a',
    Retrying.on_stderr "[download]  42.5% of 3.00MiB" Sample.world Sample.attempt1
      = Some (w', a') /\
    Sockets.grown Sample.sockets (clients w').
Proof.
  destruct (Retrying.on_stderr "[download]  42.5% of 3.00MiB" Sample.world Sample.attempt1)
    as [[w' a']|] eqn:Hrun; [| discriminate Hrun].
  exists w', a'. split; [reflexivity |].
  exact (proj1 X11_callbacks_only_append_to_open_sockets _ _ _ _ _ Hrun).
Defined.

(** ** The classifier on every text *)

(** One branch of the chain: its record is concrete, so each part of the
    statement is decided by computation. *)
Ltac branch_outcome :=
  simpl; repeat split;
  try (intros; discriminate || lia || reflexivity || congruence);
  try set_solver;
  try (intros [H _]; discriminate H);
  try (intros [_ H]; discriminate H).

(** X12: on every text the classifier answers one of six fixed
    combinations of phase, step and colour, always out of 5 steps; a
    percentage is looked for in phase [downloading] only; the phase is
    [preparing] exactly when none of the six substring tests the chain
    runs first succeeds and the text does not hold both [[download]] and
    [%] (a text with one of the two alone is still [preparing]); and
    [Extracting URL] wins over everything else in the text. *)
Theorem X12_classifier_has_six_outcomes (output : string) :
  let c := Classifier.classify output in
  (Classifier.phase c, Classifier.stepNumber c, Classifier.color c) ∈ phase_table /\
  Classifier.totalSteps c = 5%nat /\
  (Classifier.stepNumber c <= Classifier.totalSteps c)%nat /\
  (Classifier.progressMatch c <> None -> Classifier.phase c = "downloading") /\
  (Classifier.phase c = "preparing" <->
   Classifier.earlier_marker output = false /\
   (JS.includes output "[download]" && JS.includes output "%") = false) /\
  (JS.includes output "Extracting URL" = true -> Classifier.phase c = "extracting").
Proof.
  unfold Classifier.classify, Classifier.earlier_marker, phase_table.
  destruct (JS.includes output "Extracting URL"); [branch_outcome |].
  destruct (JS.includes output "Downloading webpage"); [branch_outcome |].
  destruct (JS.includes output "Downloading android" || JS.includes output "player API");
    [branch_outcome |].
  destruct (JS.includes output "Downloading m3u8" || JS.includes output "information");
    [branch_outcome |].
  destruct (JS.includes output "[download]" && JS.includes output "%"); branch_outcome.
Qed.

(** ** The progress pattern on every text *)

Section PatternFacts.

Local Arguments String.append !_ _ / : simpl nomatch.

(** The capture comes from the first position at which the pattern
    matches. *)
Lemma progress_match_first s : forall captured,
  JS.progress_match s = Some captured ->
  exists pre rest,
    s = pre +:+ rest /\ JS.pattern_matches_at rest captured /\
    forall pre1 rest1 captured1,
      s = pre1 +:+ rest1 -> (String.length pre1 < String.length pre)%nat ->
      ~ JS.pattern_matches_at rest1 captured1.
Proof.
  induction s as [|c s IH]; intros captured; rewrite progress_match_unfold.
  - destruct (JS.progress_match_here EmptyString) eqn:E; [| discriminate].
    intros [= ->]. exists EmptyString, EmptyString.
    split; [reflexivity |]. split; [now apply progress_match_here_correct |].
    intros pre1 rest1 c1 _ Hlt. simpl in Hlt. lia.
  - destruct (JS.progress_match_here (String c s)) as [p'|] eqn:E.
    + intros [= ->]. exists EmptyString, (String c s).
      split; [reflexivity |]. split; [now apply progress_match_here_correct |].
      intros pre1 rest1 c1 _ Hlt. simpl in Hlt. lia.
    + intros Htail. destruct (IH _ Htail) as (pre & rest & -> & Hmatch & Hfirst).
      exists (String c pre), rest. split; [reflexivity |]. split; [exact Hmatch |].
      intros pre1 rest1 c1 Hs Hlt Hmatch1.
      destruct pre1 as [|b pre1].
      * simpl in Hs. subst rest1.
        apply progress_match_here_correct in Hmatch1. congruence.
      * simpl in Hs. injection Hs as <- Hs. simpl in Hlt.
        apply (Hfirst pre1 rest1 c1 Hs); [lia | exact Hmatch1].
Qed.

End PatternFacts.

(** X13: [output.match(/\[download\]\s+(\d+\.\d+)%/)] is [null] exactly
    when no position of the text starts with the marker, white space,
    digits, a dot, digits and a percent sign; otherwise its group 1 is the
    two runs of digits around the dot at the first such position, so the
    text handed to [parseFloat] is always digits, a dot, digits. *)
Theorem X13_progress_pattern_semantics (output : string) :
  (JS.progress_match output = None <->
   forall pre rest captured,
     output = pre +:+ rest -> ~ JS.pattern_matches_at rest captured) /\
  (forall captured,
     JS.progress_match output = Some captured ->
     (exists pre rest,
        output = pre +:+ rest /\ JS.pattern_matches_at rest captured /\
        forall pre1 rest1 captured1,
          output = pre1 +:+ rest1 ->
          (String.length pre1 < String.length pre)%nat ->
          ~ JS.pattern_matches_at rest1 captured1) /\
     exists int_part frac_part,
       captured = int_part +:+ "." +:+ frac_part /\
       int_part <> EmptyString /\ JS.all_chars JS.is_digit int_part = true /\
       frac_part <> EmptyString /\ JS.all_chars JS.is_digit frac_part = true).
Proof.
  split; [apply progress_match_None |].
  intros captured Hmatch.
  destruct (progress_match_first output captured Hmatch)
    as (pre & rest & Hsplit & Hat & Hfirst).
  split; [now exists pre, rest |].
  destruct Hat as (ws & ip & fp & r & _ & _ & _ & Hip & Aip & Hfp & Afp & ->).
  now exists ip, fp.
Qed.

(** Two figures in one chunk: the first is the one captured. *)
Lemma X13_witness :
  exists int_part frac_part,
    "10.0" = int_part +:+ "." +:+ frac_part /\
    JS.all_chars JS.is_digit int_part = true.
Proof.
  destruct (proj2 (X13_progress_pattern_semantics
                     "[download]  10.0% of 3.00MiB [download]  42.5% of 3.00MiB")
              "10.0" eq_refl) as (_ & ip & fp & Hsplit & _ & Hdigits & _).
  now exists ip, fp.
Defined.

(** ** The search projection *)

(** X14: when the provider answers, [/search] answers status 200 with
    one item per result, in the provider's order and however many there
    are; the item carries the result's id and title, its duration in whole
    seconds rounded down, and a [thumbnail] field exactly when the result
    has a thumbnail address. *)
Theorem X14_search_projects_every_result
    (YouTube_search : string -> Search.Options -> option (list Search.Video))
    (req : Request) (q : string) (results : list Search.Video) :
  query_q req = Some q -> q <> EmptyString ->
  YouTube_search q {| Search.limit := 10; Search.type := "video" |} = Some results ->
  exists items,
    Search.response (Search.search YouTube_search req)
      = Http.json (JS.JArr items) Http.fresh /\
    Http.statusCode (Search.response (Search.search YouTube_search req)) = 200 /\
    length items = length results /\
    forall i v, results !! i = Some v ->
      exists item seconds,
        items !! i = Some item /\
        JS.get "id" item = Some (JS.JStr (Search.v_id v)) /\
        JS.get "title" item = Some (JS.JStr (Search.v_title v)) /\
        JS.get "duration" item = Some (JS.JNum (inject_Z seconds)) /\
        1000 * seconds <= Search.v_duration v < 1000 * seconds + 1000 /\
        JS.get "thumbnail" item = JS.JStr <$> Search.v_thumbnail_url v.
Proof.
  intros Hq Hne Hfound.
  assert (Htruthy : JS.truthy (query_q req) = true).
  { rewrite Hq. simpl. now destruct (String.eqb_spec q EmptyString). }
  exists (map Search.simplified results).
  unfold Search.search. rewrite Htruthy, Hq. simpl negb. cbv iota. simpl default.
  rewrite Hfound. cbn [Search.response].
  split; [reflexivity |]. split; [reflexivity |].
  split; [apply length_map |].
  intros i v Hi.
  exists (Search.simplified v), (Search.v_duration v / 1000).
  split.
  { change (map Search.simplified results) with (Search.simplified <$> results).
    now rewrite list_lookup_fmap, Hi. }
  split; [reflexivity |]. split; [reflexivity |]. split; [reflexivity |].
  split.
  { pose proof (Z.div_mod (Search.v_duration v) 1000).
    pose proof (Z.mod_pos_bound (Search.v_duration v) 1000). lia. }
  unfold Search.simplified. now destruct (Search.v_thumbnail_url v).
Qed.

(** Twelve results from the provider give twelve items; 212999 ms show
    as 212 seconds. *)
Lemma X14_witness :
  exists items,
    Search.response
      (Search.search
         (fun _ _ => Some (replicate 12
                             {| Search.v_id := "dQw4w9WgXcQ"; Search.v_title := "Song";
                                Search.v_duration := 212999;
                                Search.v_thumbnail_url := None |}))
         {| query_q := Some "song"; query_id := None; ip := None;
            remoteAddress := None |})
      = Http.json (JS.JArr items) Http.fresh /\
    length items = 12%nat.
Proof.
  destruct (X14_search_projects_every_result
              (fun _ _ => Some (replicate 12
                                  {| Search.v_id := "dQw4w9WgXcQ"; Search.v_title := "Song";
                                     Search.v_duration := 212999;
                                     Search.v_thumbnail_url := None |}))
              {| query_q := Some "song"; query_id := None; ip := None;
                 remoteAddress := None |}
              "song" _ eq_refl ltac:(discriminate) eq_refl)
    as (items & Hresponse & _ & Hlength & _).
  exists items. split; [exact Hresponse | exact Hlength].
Defined.

(** ** An accepted request, and a whole download *)

(** X15: an accepted [/download] request of the retrying revision records
    its instant for the client's address, spawns exactly one subprocess,
    with the argument list of attempt 1, and has not written anything yet:
    the response is at status 200 with the headers [Content-Type:
    audio/webm] and [Content-Disposition: attachment] naming [<id>.webm],
    and the callbacks start without data.  A refused request leaves the
    active downloads, the rate-limit map and the subprocesses as they
    were. *)
Theorem X15_accepted_request_starts_attempt_one
    (cookiesPath : string) (req : Request) (now : Z) (w : World) (id : string) :
  query_id req = Some id -> id <> EmptyString ->
  let started := Retrying.download cookiesPath req now w in
  let verdict := RateLimiter.checkRateLimit (clientIP req) now (rateLimitMap w) in
  (verdict.1 = true ->
     rateLimitMap (Retrying.world started) = verdict.2 /\
     last (default [] (rateLimitMap (Retrying.world started) !! clientIP req)) = Some now /\
     spawned (Retrying.world started) = spawned w ++ [Retrying.args cookiesPath id 1] /\
     Retrying.running started
       = Some {| Retrying.a_id := id; Retrying.a_attempt := 1;
                 Retrying.res := Retrying.response started;
                 Retrying.hasData := false; Retrying.errorOutput := EmptyString |} /\
     Retrying.response started
       = {| Http.statusCode := 200;
            Http.headers := [("Content-Type", "audio/webm");
                             ("Content-Disposition", content_disposition id)];
            Http.headersSent := false; Http.body := []; Http.finished := false |}) /\
  (verdict.1 = false ->
     activeDownloads (Retrying.world started) = activeDownloads w /\
     rateLimitMap (Retrying.world started) = rateLimitMap w /\
     spawned (Retrying.world started) = spawned w /\
     Retrying.running started = None).
Proof.
  intros Hid Hne started verdict.
  assert (Htruthy : JS.truthy (query_id req) = true).
  { rewrite Hid. simpl. now destruct (String.eqb_spec id EmptyString). }
  subst started. unfold Retrying.download. rewrite Htruthy, Hid.
  simpl negb. cbv iota. simpl default. fold verdict.
  pose proof (checkRateLimit_accepted (clientIP req) now (rateLimitMap w)) as Hok.
  pose proof (checkRateLimit_rejected (clientIP req) now (rateLimitMap w)) as Hno.
  fold verdict in Hok, Hno.
  destruct verdict as [allowed limits]. simpl in *. split.
  - intros ->. destruct (Hok eq_refl) as [_ Hlimits]. simpl.
    split; [reflexivity |]. split.
    { rewrite Hlimits, lookup_insert_eq. simpl. apply last_snoc. }
    repeat split.
  - intros ->. destruct (Hno eq_refl) as [_ ->]. simpl. repeat split.
Qed.

(** The sample request, one second after the address's first one. *)
Lemma X15_witness :
  spawned (Retrying.world
             (Retrying.download "/tmp/cookies.txt" Sample.request 2000 Sample.world))
  = spawned Sample.world ++ [Retrying.args "/tmp/cookies.txt" "dQw4w9WgXcQ" 1] /\
  rateLimitMap (Retrying.world
                  (Retrying.download "/tmp/cookies.txt" Sample.request 2000 Sample.world))
    !! Some "10.0.0.7" = Some [1000; 2000].
Proof.
  destruct (X15_accepted_request_starts_attempt_one
              "/tmp/cookies.txt" Sample.request 2000 Sample.world "dQw4w9WgXcQ"
              eq_refl ltac:(discriminate)) as [Haccepted _].
  destruct (Haccepted eq_refl) as (Hlimits & _ & Hspawned & _).
  split; [exact Hspawned |]. rewrite Hlimits. reflexivity.
Defined.

(** X16: a whole download of the simple revision.  After an accepted
    request, any chunks on stdout, the end of stdout and exit code 0, the
    response is ended at status 200 with the two download headers and a
    body that is exactly the chunks in order; the map has no entry for the
    video any more; every open socket has received the [complete] message
    and no socket that is not open has received anything. *)
Theorem X16_simple_download_streams_and_completes
    (req : Request) (w : World) (id : string) (chunks : list string) :
  query_id req = Some id -> id <> EmptyString ->
  exists d,
    Simple.running (Simple.download req w) = Some d /\
    let streamed :=
      Simple.on_stdout_end
        (fold_left (fun d data => Simple.on_stdout data d) chunks d) in
    let closed := Simple.on_close (Some 0) (Simple.world (Simple.download req w)) streamed in
    Simple.res closed.2
      = {| Http.statusCode := 200;
           Http.headers := [("Content-Type", "audio/webm");
                            ("Content-Disposition", content_disposition id)];
           Http.headersSent := true;
           Http.body := map Http.Bytes chunks;
           Http.finished := true |} /\
    activeDownloads closed.1 !! id = None /\
    Ws.delivered (Simple.complete_event id) (clients w) (clients closed.1).
Proof.
  intros Hid Hne.
  assert (Htruthy : JS.truthy (query_id req) = true).
  { rewrite Hid. simpl. now destruct (String.eqb_spec id EmptyString). }
  assert (Hpipe : forall chunks d,
            Http.finished (Simple.res d) = false ->
            Simple.res (fold_left (fun d data => Simple.on_stdout data d) chunks d)
            = {| Http.statusCode := Http.statusCode (Simple.res d);
                 Http.headers := Http.headers (Simple.res d);
                 Http.headersSent :=
                   match chunks with [] => Http.headersSent (Simple.res d) | _ => true end;
                 Http.body := Http.body (Simple.res d) ++ map Http.Bytes chunks;
                 Http.finished := false |} /\
            Simple.d_id (fold_left (fun d data => Simple.on_stdout data d) chunks d)
            = Simple.d_id d).
  { clear. intros chunks. induction chunks as [|data chunks IH]; intros d Hopen.
    - simpl. rewrite app_nil_r. split; [| reflexivity].
      destruct d as [i [s h hs b f]]. simpl in *. now subst f.
    - simpl fold_left.
      destruct (IH (Simple.on_stdout data d)) as [-> ->].
      + unfold Simple.on_stdout, Http.write. simpl. now rewrite Hopen.
      + unfold Simple.on_stdout, Http.write. simpl. rewrite Hopen. simpl.
        rewrite <- app_assoc. split; [| reflexivity]. now destruct chunks. }
  unfold Simple.download. rewrite Htruthy, Hid. simpl negb. cbv iota. simpl default.
  unfold Simple.start.
  destruct (bool_decide (metadataCache w !! id = None)); simpl;
    (eexists; split; [reflexivity |]);
    match goal with
    | |- context [fold_left _ chunks ?d0] =>
        destruct (Hpipe chunks d0 eq_refl) as [Hres Hkey]
    end;
    unfold Simple.on_close, Simple.on_stdout_end; simpl;
    rewrite Hres, Hkey; simpl;
    (split; [reflexivity |]); (split; [apply lookup_delete_eq |]);
    apply broadcast_delivered.
Qed.

(** Two chunks for the sample request. *)
Lemma X16_witness :
  exists d,
    Simple.running (Simple.download Sample.request Sample.world) = Some d /\
    Http.body
      (Simple.res
         (Simple.on_close (Some 0)
            (Simple.world (Simple.download Sample.request Sample.world))
            (Simple.on_stdout_end
               (fold_left (fun d data => Simple.on_stdout data d)
                  ["OggS"; "more audio"] d))).2)
    = [Http.Bytes "OggS"; Http.Bytes "more audio"].
Proof.
  destruct (X16_simple_download_streams_and_completes
              Sample.request Sample.world "dQw4w9WgXcQ" ["OggS"; "more audio"]
              eq_refl ltac:(discriminate)) as (d & Hrunning & Hres & _).
  exists d. split; [exact Hrunning |]. cbv zeta in Hres. now rewrite Hres.
Defined.
